(** * Inference service: checkpoint loading, prediction and result store

    A shallow embedding of [src/inference/app/server.py] and the properties
    its specification states about it, followed by the scripts of the
    Raspberry Pi that use it or feed the same store: [src/raspi/cam.py],
    [src/raspi/sensor.py] (the MCP3008 read-out) and [src/raspi/knn.py]
    (the feature extraction of [classify_row]).

    Conventions of the embedding.
    - Python exceptions are values of [Py.exn]; a computation that may raise
      returns [Py.result].  Only [Exception] subclasses are modelled (what
      [except Exception] catches).
    - Library calls the source guards with [try] (torch.load, the database
      calls, image decoding, preprocessing, the forward pass) may raise any
      exception: their outcome is an input of the model.  Library calls the
      source does not guard are given their documented behaviour, including
      their documented errors (torch.topk with k above the length,
      load_state_dict on a shape mismatch, putconn of a foreign connection).
    - Floats are modelled by the rationals they denote (no NaN, no infinity);
      [round(x, 3)] is rounding to the nearest multiple of 1/1000, ties to
      even.
    - [print] calls are not modelled.
    - In the scripts, what a script does to the outside (camera, files,
      HTTP requests) is recorded as a list of events; what the outside
      answers is an input of the model. *)

From Stdlib Require Import List String Ascii Bool Arith ZArith QArith Qround Lia.
From Stdlib Require Import Strings.Byte DecimalString DecimalNat Sorting.Sorted.
From Stdlib Require Import Permutation Lqa.
Import ListNotations.

Set Warnings "-register-all".

Local Close Scope Q_scope.
Local Open Scope nat_scope.
Local Open Scope string_scope.
Local Open Scope list_scope.

(* ================================================================== *)
(** * Python values, exceptions, strings and dicts *)
(* ================================================================== *)

Module Py.

(** An exception: its class name and [str(e)]. *)
Record exn : Type := mkExn { exn_class : string; exn_text : string }.

Inductive result (A : Type) : Type :=
| Ok (a : A)
| Raise (e : exn).
Arguments Ok {A} a.
Arguments Raise {A} e.

Definition bind {A B : Type} (c : result A) (k : A -> result B) : result B :=
  match c with
  | Ok a => k a
  | Raise e => Raise e
  end.

Definition RuntimeError (msg : string) : exn := mkExn "RuntimeError" msg.
Definition AttributeError (msg : string) : exn := mkExn "AttributeError" msg.

(** [s.startswith(p)] *)
Definition startswith (s p : string) : bool := String.prefix p s.

(** [s[n:]] *)
Fixpoint slice_from (n : nat) (s : string) : string :=
  match n, s with
  | O, _ => s
  | S n', String _ r => slice_from n' r
  | S _, EmptyString => EmptyString
  end.

(** [str(n)] for a non-negative integer. *)
Definition str_of_nat (n : nat) : string := NilEmpty.string_of_uint (Nat.to_uint n).

(** A dict with string keys: association list in insertion order. *)
Definition dict (V : Type) : Type := list (string * V).

Fixpoint get {V : Type} (d : dict V) (k : string) : option V :=
  match d with
  | [] => None
  | (k', v) :: r => if String.eqb k k' then Some v else get r k
  end.

(** [k in d] *)
Definition contains {V : Type} (d : dict V) (k : string) : bool :=
  match get d k with Some _ => true | None => false end.

(** [d[k] = v]: overwrite in place, or append a new key. *)
Fixpoint set {V : Type} (d : dict V) (k : string) (v : V) : dict V :=
  match d with
  | [] => [(k, v)]
  | (k', v') :: r => if String.eqb k k' then (k, v) :: r else (k', v') :: set r k v
  end.

Definition keys {V : Type} (d : dict V) : list string := map fst d.

(** [k in names] for a set of strings. *)
Definition mem (k : string) (names : list string) : bool :=
  existsb (String.eqb k) names.

End Py.

Notation "x <- c ;; k" := (Py.bind c (fun x => k))
  (at level 61, c at next level, right associativity).

(* ================================================================== *)
(** * torch: tensors, unpickled objects, load_state_dict, topk *)
(* ================================================================== *)

Module Torch.
Import Py.

(** A tensor: its shape and its elements (values abstracted to integers;
    only the shape and whether an element is zero are ever inspected). *)
Record Tensor : Type := mkTensor { t_shape : list nat; t_data : list Z }.

Definition numel (t : Tensor) : nat := fold_right Nat.mul 1 (t_shape t).

Definition shape_eqb (a b : list nat) : bool :=
  if list_eq_dec Nat.eq_dec a b then true else false.

(** What [torch.load(..., weights_only=True)] can return. *)
Inductive pyobj : Type :=
| PyNone
| PyBool (b : bool)
| PyInt (z : Z)
| PyStr (s : string)
| PyTensor (t : Tensor)
| PyList (l : list pyobj)
| PyDict (d : list (string * pyobj)).

(** [bool(x)].  A tensor has a truth value only when it has one element. *)
Definition truthy (x : pyobj) : result bool :=
  match x with
  | PyNone => Ok false
  | PyBool b => Ok b
  | PyInt z => Ok (negb (Z.eqb z 0))
  | PyStr s => Ok (negb (String.eqb s ""))
  | PyTensor t =>
      if Nat.eqb (numel t) 1
      then Ok (negb (Z.eqb (hd 0%Z (t_data t)) 0))
      else Raise (RuntimeError "Boolean value of Tensor is ambiguous")
  | PyList l => Ok (match l with [] => false | _ => true end)
  | PyDict d => Ok (match d with [] => false | _ => true end)
  end.

(** [a or b] where [b] is evaluated only when [a] is falsy. *)
Definition py_or (a : pyobj) (b : result pyobj) : result pyobj :=
  t <- truthy a ;; if t then Ok a else b.

(** [d.get(k)] on an unpickled dict: the value, or [None]. *)
Definition dict_get (d : dict pyobj) (k : string) : pyobj :=
  match get d k with Some v => v | None => PyNone end.

(** [x.items()]: only a dict has the method. *)
Definition items (x : pyobj) : result (dict pyobj) :=
  match x with
  | PyDict d => Ok d
  | _ => Raise (AttributeError "object has no attribute 'items'")
  end.

(** How a parameter or buffer of a module got its value. *)
Inductive Init : Type :=
| DefaultInit                 (* the architecture's own initialisation *)
| Pretrained                  (* ResNet50_Weights.IMAGENET1K_V2 *)
| Loaded (t : Tensor).        (* copied from a checkpoint tensor *)

Record Param : Type := mkParam { p_shape : list nat; p_init : Init }.

Inductive Device : Type := cpu | cuda.

(** [torch.nn.Linear]: weight of shape [out_features; in_features] and
    bias of shape [out_features]. *)
Record Linear : Type := mkLinear {
  in_features : nat;
  out_features : nat;
  weight : Init;
  bias : Init
}.

(** [torch.nn.Linear(in_features, out_features)] *)
Definition new_Linear (in_f out_f : nat) : Linear :=
  mkLinear in_f out_f DefaultInit DefaultInit.

(** torchvision's ResNet: the entries of every layer before [fc] by name,
    the output layer [fc], the training flag and the device. *)
Record ResNet : Type := mkResNet {
  layers : dict Param;
  fc : Linear;
  training : bool;
  dev : Device
}.

(** [tv_models.resnet50(weights=...)].  [backbone] lists name and shape of
    every state_dict entry before [fc]; [fc] maps 2048 features to the
    1000 ImageNet classes.  A new module is in training mode, on the CPU. *)
Definition resnet50 (backbone : list (string * list nat)) (pretrained : bool)
  : ResNet :=
  let init := if pretrained then Pretrained else DefaultInit in
  {| layers := map (fun e => (fst e, mkParam (snd e) init)) backbone;
     fc := mkLinear 2048 1000 init init;
     training := true;
     dev := cpu |}.

(** [model.fc = new_fc] *)
Definition set_fc (m : ResNet) (new_fc : Linear) : ResNet :=
  {| layers := layers m; fc := new_fc; training := training m; dev := dev m |}.

(** [model.to(device)] and [model.eval()] *)
Definition to (m : ResNet) (d : Device) : ResNet :=
  {| layers := layers m; fc := fc m; training := training m; dev := d |}.
Definition eval (m : ResNet) : ResNet :=
  {| layers := layers m; fc := fc m; training := false; dev := dev m |}.

Definition fc_weight (l : Linear) : Param :=
  mkParam [out_features l; in_features l] (weight l).
Definition fc_bias (l : Linear) : Param :=
  mkParam [out_features l] (bias l).

(** [model.state_dict()] *)
Definition state_dict (m : ResNet) : dict Param :=
  layers m ++ [("fc.weight", fc_weight (fc m)); ("fc.bias", fc_bias (fc m))].

(** Copying one checkpoint value into an entry: it must be a tensor of
    the entry's shape. *)
Definition copy_param (p : Param) (v : pyobj) : option Param :=
  match v with
  | PyTensor t =>
      if shape_eqb (t_shape t) (p_shape p)
      then Some (mkParam (p_shape p) (Loaded t))
      else None
  | _ => None
  end.

(** One entry of the module against the mapping [sd]: absent from [sd] it
    keeps its value; [None] when the copy fails. *)
Definition load_entry (sd : dict pyobj) (name : string) (p : Param) : option Param :=
  match get sd name with
  | None => Some p
  | Some v => copy_param p v
  end.

Fixpoint load_into (ps : dict Param) (sd : dict pyobj) : option (dict Param) :=
  match ps with
  | [] => Some []
  | (name, p) :: r =>
      match load_entry sd name p, load_into r sd with
      | Some p', Some r' => Some ((name, p') :: r')
      | _, _ => None
      end
  end.

Definition load_fc (l : Linear) (sd : dict pyobj) : option Linear :=
  match load_entry sd "fc.weight" (fc_weight l),
        load_entry sd "fc.bias" (fc_bias l) with
  | Some w, Some b => Some (mkLinear (in_features l) (out_features l) (p_init w) (p_init b))
  | _, _ => None
  end.

Definition missing_keys (ps : dict Param) (sd : dict pyobj) : list string :=
  filter (fun k => negb (contains sd k)) (keys ps).

Definition unexpected_keys (ps : dict Param) (sd : dict pyobj) : list string :=
  filter (fun k => negb (contains ps k)) (keys sd).

Definition is_nil {A : Type} (l : list A) : bool :=
  match l with [] => true | _ => false end.

Definition load_error : exn :=
  RuntimeError "Error(s) in loading state_dict for ResNet".

(** [model.load_state_dict(sd, strict)]: the module with the entries of
    [sd] copied in, and the pair (missing_keys, unexpected_keys).  A failed
    copy raises whatever [strict] is; missing or unexpected keys raise only
    when [strict]. *)
Definition load_state_dict (m : ResNet) (sd : dict pyobj) (strict : bool)
  : result (ResNet * (list string * list string)) :=
  let missing := missing_keys (state_dict m) sd in
  let unexpected := unexpected_keys (state_dict m) sd in
  match load_into (layers m) sd, load_fc (fc m) sd with
  | Some ls, Some l =>
      if strict && negb (is_nil missing && is_nil unexpected)
      then Raise load_error
      else Ok ({| layers := ls; fc := l; training := training m; dev := dev m |},
               (missing, unexpected))
  | _, _ => Raise load_error
  end.

(** The order [torch.topk] is modelled with: larger value first, and among
    equal values the lower index first (torch itself leaves the order of
    equal values open). *)
Definition ranks_before (a b : Q * nat) : bool :=
  match Qcompare (fst a) (fst b) with
  | Gt => true
  | Lt => false
  | Eq => Nat.leb (snd a) (snd b)
  end.

Fixpoint insert_ranked (a : Q * nat) (l : list (Q * nat)) : list (Q * nat) :=
  match l with
  | [] => [a]
  | b :: r => if ranks_before a b then a :: b :: r else b :: insert_ranked a r
  end.

Definition sort_ranked (l : list (Q * nat)) : list (Q * nat) :=
  fold_right insert_ranked [] l.

Definition enumerate (l : list Q) : list (Q * nat) :=
  combine l (seq 0 (List.length l)).

(** [torch.topk(input, k)] on a vector: (values, indices) of the [k]
    largest elements, largest first; an error when [k] exceeds the size. *)
Definition topk (input : list Q) (k : nat) : result (list Q * list nat) :=
  if Nat.ltb (List.length input) k
  then Raise (RuntimeError "selected index k out of range")
  else
    let top := firstn k (sort_ranked (enumerate input)) in
    Ok (map fst top, map snd top).

End Torch.

(* ================================================================== *)
(** * psycopg2: the connection pool *)
(* ================================================================== *)

Module Psycopg2.
Import Py.

Definition connection : Type := nat.

(** [SimpleConnectionPool]: its bound, the connections checked out and
    the identity the next connection gets. *)
Record SimpleConnectionPool : Type := mkPool {
  minconn : nat;
  maxconn : nat;
  used : list connection;
  next_connection : connection
}.

Definition PoolError (msg : string) : exn := mkExn "PoolError" msg.

(** [pool.getconn()]: refused when [maxconn] connections are out;
    [connect] is the outcome of reaching the server ([None]: reached). *)
Definition getconn (p : SimpleConnectionPool) (connect : option exn)
  : result connection * SimpleConnectionPool :=
  if Nat.leb (maxconn p) (List.length (used p))
  then (Raise (PoolError "connection pool exhausted"), p)
  else
    match connect with
    | Some e => (Raise e, p)
    | None =>
        (Ok (next_connection p),
         {| minconn := minconn p; maxconn := maxconn p;
            used := next_connection p :: used p;
            next_connection := S (next_connection p) |})
    end.

Fixpoint remove_first (c : connection) (l : list connection) : list connection :=
  match l with
  | [] => []
  | c' :: r => if Nat.eqb c c' then r else c' :: remove_first c r
  end.

(** [pool.putconn(conn)]: refused for a connection the pool did not hand
    out. *)
Definition putconn (p : SimpleConnectionPool) (c : connection)
  : result SimpleConnectionPool :=
  if existsb (Nat.eqb c) (used p)
  then Ok {| minconn := minconn p; maxconn := maxconn p;
             used := remove_first c (used p);
             next_connection := next_connection p |}
  else Raise (PoolError "trying to put unkeyed connection").

End Psycopg2.

(* ================================================================== *)
(** * server.py *)
(* ================================================================== *)

Module Server.
Import Py Torch Psycopg2.

(** What the module reads from its environment at import time:
    [labels.json], the SCORE_THRESHOLD variable, the layout of
    torchvision's ResNet-50 and [torch.cuda.is_available()]. *)
Record Config : Type := mkConfig {
  LABELS : dict string;
  SCORE_THRESHOLD : Q;
  backbone : list (string * list nat);
  cuda_is_available : bool
}.

(** ** Result store (lines 19-52) *)

(** One entry of [results]. *)
Record Prediction : Type := mkPrediction { label : string; confidence : Q }.

(** One row of the table [predictions]; the JSON text of the last column
    is kept as the list it encodes. *)
Record Row : Type := mkRow {
  source : option string;
  image_width : nat;
  image_height : nat;
  predictions : list Prediction
}.

(** The mutable state a request can touch: the global [_db_pool] and the
    rows committed to the table. *)
Record World : Type := mkWorld {
  _db_pool : option SimpleConnectionPool;
  table : list Row
}.

(** [init_db_pool()]; [create] is the outcome of
    [SimpleConnectionPool(1, 10, dsn=DB_DSN)]. *)
Definition init_db_pool (create : option exn) (w : World) : World :=
  match _db_pool w with
  | None =>
      match create with
      | None => mkWorld (Some (mkPool 1 10 [] 0)) (table w)
      | Some e => mkWorld None (table w)
      end
  | Some _ => w
  end.

(** The outcome of each database call of one write ([None]: no error). *)
Record DbCalls : Type := mkDbCalls {
  on_getconn : option exn;
  on_cursor : option exn;
  on_execute : option exn;
  on_commit : option exn;
  on_close : option exn
}.

Definition call (outcome : option exn) : result unit :=
  match outcome with
  | None => Ok tt
  | Some e => Raise e
  end.

(** Lines 40-47, the body of the [try]: the value [conn] has afterwards,
    how the body ended, the pool and the table. *)
Definition save_try (db : DbCalls) (pool : SimpleConnectionPool)
    (rows : list Row) (row : Row)
  : option connection * result unit * SimpleConnectionPool * list Row :=
  match getconn pool (on_getconn db) with
  | (Raise e, pool') => (None, Raise e, pool', rows)
  | (Ok conn, pool') =>
      match call (on_cursor db) with
      | Raise e => (Some conn, Raise e, pool', rows)
      | Ok _ =>
          match call (on_execute db) with
          | Raise e => (Some conn, Raise e, pool', rows)
          | Ok _ =>
              match call (on_commit db) with
              | Raise e => (Some conn, Raise e, pool', rows)
              | Ok _ => (Some conn, call (on_close db), pool', rows ++ [row])
              end
          end
      end
  end.

(** [_save_predictions_to_db(results, orig_w, orig_h, source)] *)
Definition _save_predictions_to_db (db : DbCalls) (results : list Prediction)
    (orig_w orig_h : nat) (source : option string) (w : World)
  : result unit * World :=
  match _db_pool w with
  | None => (Ok tt, w)
  | Some pool =>
      let '(conn, body, pool1, rows1) :=
        save_try db pool (table w) (mkRow source orig_w orig_h results) in
      (* except Exception as e: print(...) *)
      let outcome := match body with Raise e => Ok tt | Ok u => Ok u end in
      (* finally: if conn: _db_pool.putconn(conn) *)
      match conn with
      | Some c =>
          match putconn pool1 c with
          | Ok pool2 => (outcome, mkWorld (Some pool2) rows1)
          | Raise e => (Raise e, mkWorld (Some pool1) rows1)
          end
      | None => (outcome, mkWorld (Some pool1) rows1)
      end
  end.

(** ** Model loading (lines 84-155) *)

Definition device (cfg : Config) : Device :=
  if cuda_is_available cfg then cuda else cpu.

Definition wrapper_keys : list string :=
  ["state_dict"; "model_state"; "model_state_dict"].

(** Lines 122-125: the state_dict of a checkpoint ([PyNone] for [None]). *)
Definition extract_state_dict (state : pyobj) : result pyobj :=
  match state with
  | PyDict d =>
      if existsb (fun k => contains d k) wrapper_keys
      then py_or (dict_get d "state_dict")
             (py_or (dict_get d "model_state")
                (Ok (dict_get d "model_state_dict")))
      else Ok state
  | _ => Ok PyNone
  end.

(** Lines 133-137: the new key of one checkpoint key. *)
Definition strip_prefixes (key : string) : string :=
  let new_key := key in
  let new_key :=
    if startswith new_key "module."
    then slice_from (String.length "module.") new_key else new_key in
  let new_key :=
    if startswith new_key "model."
    then slice_from (String.length "model.") new_key else new_key in
  new_key.

(** Lines 131-138: [cleaned_state_dict]. *)
Definition clean_state_dict (items : dict pyobj) : dict pyobj :=
  fold_left (fun cleaned kv => set cleaned (strip_prefixes (fst kv)) (snd kv))
            items [].

(** Line 142: [filtered_state_dict]. *)
Definition filter_state_dict (cleaned : dict pyobj) (model_keys : list string)
  : dict pyobj :=
  filter (fun kv => mem (fst kv) model_keys) cleaned.

(** Lines 100-102 and 113-115: ResNet-50 with a new output layer of
    [len(LABELS)] outputs. *)
Definition build_classifier (cfg : Config) (pretrained : bool) : ResNet :=
  let num_classes := List.length (LABELS cfg) in
  let model := resnet50 (backbone cfg) pretrained in
  let in_features := in_features (fc model) in
  set_fc model (new_Linear in_features num_classes).

Definition no_state_dict : exn :=
  RuntimeError "Checkpoint does not contain a valid state_dict".

(** [load_model()]; [torch_load] is the outcome of
    [torch.load(MODEL_PATH, map_location=device, weights_only=True)]. *)
Definition load_model (cfg : Config) (torch_load : result pyobj) : result ResNet :=
  let model := build_classifier cfg false in
  match torch_load with
  | Raise e =>
      let model := build_classifier cfg true in
      Ok (eval (to model (device cfg)))
  | Ok state =>
      state_dict <- extract_state_dict state ;;
      match state_dict with
      | PyNone => Raise no_state_dict
      | _ =>
          its <- items state_dict ;;
          let cleaned_state_dict := clean_state_dict its in
          let model_keys := keys (Torch.state_dict model) in
          let filtered_state_dict := filter_state_dict cleaned_state_dict model_keys in
          r <- load_state_dict model filtered_state_dict false ;;
          Ok (eval (to (fst r) (device cfg)))
      end
  end.



(** ** Prediction (lines 166-202) *)

(** [round(x)] of an exact value: nearest integer, ties to even. *)
Definition round_half_even (x : Q) : Z :=
  let f := Qfloor x in
  match Qcompare (x - inject_Z f) (1 # 2) with
  | Lt => f
  | Gt => (f + 1)%Z
  | Eq => if Z.even f then f else (f + 1)%Z
  end.

(** [round(x, 3)] *)
Definition round3 (x : Q) : Q := Qmake (round_half_even (x * 1000)) 1000.

(** Line 184: the label of class [idx]. *)
Definition label_of (cfg : Config) (idx : nat) : string :=
  match get (LABELS cfg) (str_of_nat idx) with
  | Some l => l
  | None => "class_" ++ str_of_nat idx
  end.

(** Lines 182-187: the loop over [range(len(scores))]. *)
Definition collect_results (cfg : Config) (scores : list Q) (indices : list nat)
  : list Prediction :=
  fold_left
    (fun results i =>
       let label := label_of cfg (nth i indices 0) in
       let conf := nth i scores 0%Q in
       if Qle_bool (SCORE_THRESHOLD cfg) conf
       then results ++ [mkPrediction label (round3 conf)]
       else results)
    (seq 0 (List.length scores)) [].

(** Lines 178-187: from the class probabilities to [results]. *)
Definition prediction_results (cfg : Config) (probs : list Q)
  : result (list Prediction) :=
  r <- topk probs 3 ;;
  Ok (collect_results cfg (fst r) (snd r)).

(** A decoded image: [image.size] and its raster. *)
Record Image : Type := mkImage { size : nat * nat; pixels : list byte }.

(** The uploaded file: [file.filename] and its content. *)
Record UploadFile : Type := mkUpload { filename : option string; data : list byte }.

(** The guarded calls of one request: [file.read()], [Image.open],
    [preprocess_image], [model(tensor)] followed by softmax, and the
    database calls. *)
Record Calls : Type := mkCalls {
  read : UploadFile -> result (list byte);
  Image_open : list byte -> result Image;
  preprocess_image : Image -> result Tensor;
  model_softmax : Tensor -> result (list Q);
  db_calls : DbCalls
}.

Inductive Content : Type :=
| Predictions (name : option string) (width height : nat) (preds : list Prediction)
| Error (error : string).

Record JSONResponse : Type := mkResponse { status_code : nat; content : Content }.

(** Lines 169-177: from the upload to the image and its probabilities. *)
Definition infer (env : Calls) (file : UploadFile) : result (Image * list Q) :=
  image_bytes <- read env file ;;
  image <- Image_open env image_bytes ;;
  tensor <- preprocess_image env image ;;
  probs <- model_softmax env tensor ;;
  Ok (image, probs).

(** Lines 169-199, the body of the [try] of [predict]. *)
Definition predict_try (cfg : Config) (env : Calls) (file : UploadFile) (w : World)
  : result JSONResponse * World :=
  match infer env file with
  | Raise e => (Raise e, w)
  | Ok (image, probs) =>
      let '(orig_w, orig_h) := size image in
      match prediction_results cfg probs with
      | Raise e => (Raise e, w)
      | Ok results =>
          match _save_predictions_to_db (db_calls env) results orig_w orig_h
                  (filename file) w with
          | (Raise e, w') => (Raise e, w')
          | (Ok _, w') =>
              (Ok (mkResponse 200
                     (Predictions (filename file) orig_w orig_h results)), w')
          end
      end
  end.

(** [predict(file)] *)
Definition predict (cfg : Config) (env : Calls) (file : UploadFile) (w : World)
  : JSONResponse * World :=
  match predict_try cfg env file w with
  | (Ok response, w') => (response, w')
  | (Raise e, w') => (mkResponse 500 (Error (exn_text e)), w')
  end.

(** [health_check()] *)
Definition health_check : string * string := ("status", "ok").

End Server.

(* ================================================================== *)
(** * JSON values *)
(* ================================================================== *)

Module Json.

(** What [json.loads] returns and [json.dumps] accepts. *)
Inductive value : Type :=
| JNull
| JBool (b : bool)
| JInt (z : Z)
| JFloat (q : Q)
| JStr (s : string)
| JList (l : list value)
| JObj (members : list (string * value)).

End Json.

(* ================================================================== *)
(** * raspi/cam.py *)
(* ================================================================== *)

Module Cam.
Import Py Json.

(** The environment variables the script reads at import ([None]: unset). *)
Record Environ : Type := mkEnviron {
  RASPI_ID : string;
  IMAGE_PATH : string;
  CAMERA_INDEX : nat;
  SUPABASE_URL : option string;
  SUPABASE_KEY : option string;
  PREDICTION_TABLE : string
}.

(** The truth value of what [os.getenv] returned. *)
Definition is_set (v : option string) : bool :=
  match v with
  | Some s => negb (String.eqb s "")
  | None => false
  end.

(** Lines 20-30: [SUPA_INSERT_URL]. *)
Definition SUPA_INSERT_URL (env : Environ) : option string :=
  match SUPABASE_URL env, SUPABASE_KEY env with
  | Some url, Some key =>
      if is_set (Some url) && is_set (Some key)
      then Some (url ++ "/rest/v1/" ++ PREDICTION_TABLE env)%string
      else None
  | _, _ => None
  end.

(** A [requests.Response]: its status and what [.json()] gives. *)
Record Response : Type := mkHttp {
  status_code : nat;
  json : result value
}.

(** The outcome of each call the script makes to the outside. *)
Record Calls : Type := mkCalls {
  isOpened : bool;                     (* cap.isOpened() *)
  frame_read : bool;                   (* ret of cap.read() *)
  imwrite : option exn;                (* cv2.imwrite(path, frame) *)
  open_rb : option exn;                (* open(path, "rb") *)
  predictor : result Response;         (* requests.post(PREDICTOR_URL, ...) *)
  supabase : result Response;          (* requests.post(SUPA_INSERT_URL, ...) *)
  utcnow : string                      (* datetime.utcnow().isoformat() *)
}.

(** What the script does to the outside, in order; a request is listed
    when it is made, whatever comes back. *)
Inductive Event : Type :=
| CameraReleased
| ImageWritten (path : string)
| ImagePosted (name : string)
| SupabasePosted (url : string) (payload : value).

(** [os.path.basename(path)]: what follows the last slash. *)
Fixpoint basename_from (acc s : string) : string :=
  match s with
  | EmptyString => acc
  | String c r =>
      if Ascii.eqb c "/"%char then basename_from "" r
      else basename_from (acc ++ String c "")%string r
  end.
Definition basename (path : string) : string := basename_from "" path.

(** [capture_with_webcam(path)] *)
Definition capture_with_webcam (env : Environ) (calls : Calls) (path : string)
  : result string * list Event :=
  if negb (isOpened calls)
  then (Raise (RuntimeError ("Webcam not accessible at index "
                             ++ str_of_nat (CAMERA_INDEX env))%string), [])
  else if negb (frame_read calls)
  then (Raise (RuntimeError "Failed to capture image from webcam"), [CameraReleased])
  else match imwrite calls with
       | Some e => (Raise e, [CameraReleased])
       | None => (Ok path, [CameraReleased; ImageWritten path])
       end.

(** [post_image_to_predictor(path)]: the response, or [None]; opening the
    file is outside the [try]. *)
Definition post_image_to_predictor (calls : Calls) (path : string)
  : result (option Response) * list Event :=
  match open_rb calls with
  | Some e => (Raise e, [])
  | None =>
      match predictor calls with
      | Ok response => (Ok (Some response), [ImagePosted (basename path)])
      | Raise e => (Ok None, [ImagePosted (basename path)])
      end
  end.

(** Lines 70-74: the record sent to the store. *)
Definition payload (env : Environ) (calls : Calls) (pred_json : value) : value :=
  JObj [("raspi_id", JStr (RASPI_ID env));
        ("timestamp", JStr (utcnow calls));
        ("prediction", pred_json)].

(** [save_prediction_to_supabase(pred_json)] *)
Definition save_prediction_to_supabase (env : Environ) (calls : Calls)
    (pred_json : value) : bool * list Event :=
  match SUPA_INSERT_URL env with
  | None => (false, [])
  | Some url =>
      let sent := [SupabasePosted url (payload env calls pred_json)] in
      match supabase calls with
      | Ok response =>
          if Nat.eqb (status_code response) 200 || Nat.eqb (status_code response) 201
          then (true, sent)
          else (false, sent)
      | Raise e => (false, sent)
      end
  end.

(** How the process ends: [main] returns, [sys.exit(code)], or an
    exception nothing catches. *)
Inductive Exit : Type :=
| Returned
| SysExit (code : nat)
| Uncaught (e : exn).

(** [main()] *)
Definition main (env : Environ) (calls : Calls) : Exit * list Event :=
  match capture_with_webcam env calls (IMAGE_PATH env) with
  | (Raise e, ev1) => (SysExit 1, ev1)
  | (Ok path, ev1) =>
      match post_image_to_predictor calls path with
      | (Raise e, ev2) => (Uncaught e, ev1 ++ ev2)
      | (Ok None, ev2) => (SysExit 1, ev1 ++ ev2)
      | (Ok (Some response), ev2) =>
          match json response with
          | Raise e => (SysExit 1, ev1 ++ ev2)
          | Ok result_json =>
              match SUPA_INSERT_URL env with
              | Some url =>
                  if negb (String.eqb url "")
                  then
                    let '(saved, ev3) :=
                      save_prediction_to_supabase env calls
                        (JObj [("image_path", JStr path); ("result", result_json)]) in
                    (Returned, ev1 ++ ev2 ++ ev3)
                  else (Returned, ev1 ++ ev2)
              | None => (Returned, ev1 ++ ev2)
              end
          end
      end
  end.

End Cam.

(* ================================================================== *)
(** * raspi/sensor.py *)
(* ================================================================== *)

Module Sensor.
Import Py.

Definition ValueError (msg : string) : exn := mkExn "ValueError" msg.
Definition IndexError (msg : string) : exn := mkExn "IndexError" msg.

(** [l[i]] *)
Definition item (l : list Z) (i : nat) : result Z :=
  match nth_error l i with
  | Some x => Ok x
  | None => Raise (IndexError "list index out of range")
  end.

(** Line 40: the three bytes sent to the MCP3008. *)
Definition command (channel : Z) : list Z :=
  [1; Z.shiftl (8 + channel) 4; 0]%Z.

(** [read_channel(channel)]; [xfer2] is [spi.xfer2], from the bytes sent
    to the bytes received. *)
Definition read_channel (xfer2 : list Z -> list Z) (channel : Z) : result Z :=
  if negb (Z.leb 0 channel && Z.leb channel 7)
  then Raise (ValueError "MCP3008 channel must be 0–7")
  else
    let adc := xfer2 (command channel) in
    a1 <- item adc 1 ;;
    a2 <- item adc 2 ;;
    let data := Z.lor (Z.shiftl (Z.land a1 3) 8) a2 in
    Ok data.

End Sensor.

(* ================================================================== *)
(** * raspi/knn.py *)
(* ================================================================== *)

Module Knn.
Import Py Json.

(** [bool(v)] *)
Definition truthy (v : value) : bool :=
  match v with
  | JNull => false
  | JBool b => b
  | JInt z => negb (Z.eqb z 0)
  | JFloat q => negb (Qeq_bool q 0)
  | JStr s => negb (String.eqb s "")
  | JList l => match l with [] => false | _ :: _ => true end
  | JObj members => match members with [] => false | _ :: _ => true end
  end.

Definition type_name (v : value) : string :=
  match v with
  | JNull => "NoneType"
  | JBool _ => "bool"
  | JInt _ => "int"
  | JFloat _ => "float"
  | JStr _ => "str"
  | JList _ => "list"
  | JObj _ => "dict"
  end.

(** [v.get] on a value that is no dict. *)
Definition no_get (v : value) : exn :=
  AttributeError ("'" ++ type_name v ++ "' object has no attribute 'get'")%string.

(** [d.get(k)] and [d.get(k, default)] *)
Definition dict_get (d : value) (k : string) (default : value) : result value :=
  match d with
  | JObj members =>
      match get members k with
      | Some v => Ok v
      | None => Ok default
      end
  | _ => Raise (no_get d)
  end.

(** [[readings.get(f, 0.0) for f in features]] *)
Fixpoint values_of (readings : value) (features : list string) : result (list value) :=
  match features with
  | [] => Ok []
  | f :: rest =>
      v <- dict_get readings f (JFloat 0) ;;
      vs <- values_of readings rest ;;
      Ok (v :: vs)
  end.

(** Lines 70-71 of [classify_row]: the feature values handed to the scaler. *)
Definition feature_values (row : value) (features : list string) : result (list value) :=
  r <- dict_get row "readings" JNull ;;
  let readings := if truthy r then r else JObj [] in
  values_of readings features.

End Knn.

(* ================================================================== *)
(** * Vocabulary of the properties *)
(* ================================================================== *)

Import Py Torch Psycopg2 Server.

(** The stripping rule as the specification words it: at most one prefix. *)
Definition spec_strip_one_prefix (key : string) : string :=
  if startswith key "module." then slice_from (String.length "module.") key
  else if startswith key "model." then slice_from (String.length "model.") key
  else key.

(** A process answering its requests one after the other. *)
Fixpoint serve (cfg : Config) (requests : list (Calls * UploadFile)) (w : World)
  : list JSONResponse * World :=
  match requests with
  | [] => ([], w)
  | (env, file) :: rest =>
      let '(response, w1) := predict cfg env file w in
      let '(responses, w2) := serve cfg rest w1 in
      (response :: responses, w2)
  end.

(** Every value of [sd] stored under the name of an entry of [ps] can be
    copied into that entry. *)
Definition copyable (ps : dict Param) (sd : dict pyobj) : Prop :=
  forall name p v, In (name, p) ps -> get sd name = Some v -> copy_param p v <> None.



(** Line 186: the class passes the threshold. *)
Definition passes (cfg : Config) (a : Q * nat) : bool :=
  Qle_bool (SCORE_THRESHOLD cfg) (fst a).

(** Line 187: the entry of a class. *)
Definition to_prediction (cfg : Config) (a : Q * nat) : Prediction :=
  mkPrediction (label_of cfg (snd a)) (round3 (fst a)).

(** The confidences fall (weakly) along a list of results. *)
Definition falling (results : list Prediction) : Prop :=
  StronglySorted (fun r s => (confidence s <= confidence r)%Q) results.

(** A database call that raised nothing. *)
Definition succeeds (outcome : option exn) : bool :=
  match outcome with None => true | Some _ => false end.


(** The response has status 200. *)
Definition answered_200 (r : JSONResponse) : bool := Nat.eqb (status_code r) 200.

(** The architecture of a module: the names and shapes of its entries. *)
Definition architecture (m : ResNet) : list (string * list nat) :=
  map (fun e => (fst e, p_shape (snd e))) (Torch.state_dict m).

(** Lines 187 and 193-198, 202 of server.py: the JSON body of a response. *)
Definition prediction_json (p : Prediction) : Json.value :=
  Json.JObj [("label", Json.JStr (label p));
             ("confidence", Json.JFloat (confidence p))].

Definition content_json (c : Content) : Json.value :=
  match c with
  | Predictions name width height preds =>
      Json.JObj [("filename", match name with
                              | Some n => Json.JStr n
                              | None => Json.JNull
                              end);
                 ("width", Json.JInt (Z.of_nat width));
                 ("height", Json.JInt (Z.of_nat height));
                 ("predictions", Json.JList (map prediction_json preds))]
  | Error error => Json.JObj [("error", Json.JStr error)]
  end.

(** The response of the server as the client's [requests] hands it over. *)
Definition delivered (r : JSONResponse) : Cam.Response :=
  Cam.mkHttp (status_code r) (Ok (content_json (content r))).


(** Reasoning on [Forall] element by element. *)
Ltac forall_elements x Hx := rewrite Forall_forall in *; intros x Hx.

(* ================================================================== *)
(** * Examples *)
(* ================================================================== *)

(** A checkpoint value used in the examples. *)
Definition some_tensor : pyobj := PyTensor (mkTensor [2] [3%Z; 4%Z]).

(** An environment used in the examples: two labels, one backbone entry,
    no accelerator. *)
Definition example_cfg : Config :=
  mkConfig [("0", "cat"); ("1", "dog")] (1 # 4) [("conv1.weight", [64; 3; 7; 7])] false.

(** A detector checkpoint: one key of the classifier under a prefix, one
    key of another architecture. *)
Definition detector_checkpoint : dict pyobj :=
  [("module.fc.bias", some_tensor); ("detect.head.weight", some_tensor)].


Definition high_threshold_cfg : Config :=
  mkConfig [("0", "cat"); ("1", "dog")] (5 # 8) [] false.


(** The camera script with Supabase configured, a working camera, and a
    predictor that is reached. *)
Definition cam_environ : Cam.Environ :=
  Cam.mkEnviron "raspi-7" "./capture.jpg" 0
                (Some "https://db.example") (Some "secret") "predictions".

Definition cam_calls (answer : Cam.Response) : Cam.Calls :=
  Cam.mkCalls true true None None (Ok answer)
              (Raise (mkExn "ConnectionError" "store unreachable"))
              "2025-01-01T00:00:00".

(** An MCP3008 that answers every transfer with the same three bytes. *)
Definition steady_adc (xfer : list Z) : list Z := [0; 2; 171]%Z.

(** A row of sensor readings with a null temperature and no TDS. *)
Definition partial_row : list (string * Json.value) :=
  [("id", Json.JInt 5);
   ("readings", Json.JObj [("ph", Json.JFloat 7); ("temp", Json.JNull)])].

(** Requests used in the examples. *)
Definition upload : UploadFile := mkUpload (Some "leaf.jpg") [xff; xd8; xff].

Definition failing_insert : DbCalls :=
  mkDbCalls None None (Some (mkExn "UndefinedTable" "relation does not exist"))
            None None.

Definition failing_store_env : Calls :=
  mkCalls (fun f => Ok (data f))
          (fun b => Ok (mkImage (4, 5) b))
          (fun _ => Ok (mkTensor [1; 3; 640; 640] []))
          (fun _ => Ok [(7 # 10)%Q; (1 # 4)%Q; (1 # 20)%Q])
          failing_insert.

Definition undecodable_env : Calls :=
  mkCalls (fun f => Ok (data f))
          (fun _ => Raise (mkExn "UnidentifiedImageError" "cannot identify image file"))
          (fun _ => Ok (mkTensor [1; 3; 640; 640] []))
          (fun _ => Ok [(7 # 10)%Q; (1 # 4)%Q; (1 # 20)%Q])
          failing_insert.

Definition silent_failure_env : Calls :=
  mkCalls (fun f => Ok (data f))
          (fun b => Ok (mkImage (4, 5) b))
          (fun _ => Ok (mkTensor [1; 3; 640; 640] []))
          (fun _ => Raise (mkExn "NotImplementedError" ""))
          failing_insert.

Definition pooled_world : World := init_db_pool None (mkWorld None []).

(* ================================================================== *)
(** * Properties *)
(* ================================================================== *)

(** ** The model on the specification's scenarios *)

Example scenario_top3 :
  prediction_results example_cfg [(7 # 10)%Q; (1 # 4)%Q; (1 # 20)%Q]
  = Ok [mkPrediction "cat" (700 # 1000)%Q; mkPrediction "dog" (250 # 1000)%Q].
Proof. reflexivity. Qed.

Example scenario_fallback_label :
  prediction_results example_cfg [(1 # 10)%Q; (1 # 10)%Q; (8 # 10)%Q]
  = Ok [mkPrediction "class_2" (800 # 1000)%Q].
Proof. reflexivity. Qed.

Example scenario_detector_checkpoint :
  option_map (fun m => bias (fc m))
    (match load_model example_cfg (Ok (PyDict detector_checkpoint)) with
     | Ok m => Some m
     | Raise _ => None
     end)
  = Some (Loaded (mkTensor [2] [3%Z; 4%Z])).
Proof. reflexivity. Qed.

Example scenario_failed_insert :
  predict example_cfg failing_store_env upload pooled_world
  = (mkResponse 200
       (Predictions (Some "leaf.jpg") 4 5
          [mkPrediction "cat" (700 # 1000)%Q; mkPrediction "dog" (250 # 1000)%Q]),
     mkWorld (Some (mkPool 1 10 [] 1)) []).
Proof. reflexivity. Qed.

Example scenario_insert :
  table (snd (predict example_cfg
                (mkCalls (read failing_store_env) (Image_open failing_store_env)
                   (preprocess_image failing_store_env) (model_softmax failing_store_env)
                   (mkDbCalls None None None None None))
                upload pooled_world))
  = [mkRow (Some "leaf.jpg") 4 5
       [mkPrediction "cat" (700 # 1000)%Q; mkPrediction "dog" (250 # 1000)%Q]].
Proof. reflexivity. Qed.

Example scenario_pool_exhausted :
  _save_predictions_to_db (mkDbCalls None None None None None) [] 4 5 None
    (mkWorld (Some (mkPool 1 2 [7; 8] 9)) [])
  = (Ok tt, mkWorld (Some (mkPool 1 2 [7; 8] 9)) []).
Proof. reflexivity. Qed.

(** ** Checkpoint keys: prefix stripping *)

Section StripPrefixes.

Variable r : string.

Lemma prefix_empty : String.prefix "" r = true.
Proof. destruct r; reflexivity. Qed.

Lemma strip_both : strip_prefixes ("module.model." ++ r) = r.
Proof. unfold strip_prefixes. cbn. rewrite prefix_empty. reflexivity. Qed.

Lemma strip_model_once : strip_prefixes ("model." ++ r) = r.
Proof. unfold strip_prefixes. cbn. rewrite prefix_empty. reflexivity. Qed.

Lemma strip_module_only :
  startswith r "model." = false -> strip_prefixes ("module." ++ r) = r.
Proof.
  intros H. unfold strip_prefixes. cbn. rewrite prefix_empty.
  change (String.prefix "model." r) with (startswith r "model.").
  rewrite H. reflexivity.
Qed.

Lemma strip_nothing :
  startswith r "module." = false -> startswith r "model." = false ->
  strip_prefixes r = r.
Proof.
  intros H1 H2. unfold strip_prefixes. rewrite H1, H2. reflexivity.
Qed.

End StripPrefixes.

(** C1, as stated, fails: the key [module.model.fc.weight] loses both
    prefixes, where stripping at most one prefix would leave
    [model.fc.weight]; the cleaned mapping holds the key [fc.weight]. *)
Lemma C1_double_prefix_double_stripped :
  strip_prefixes "module.model.fc.weight" = "fc.weight"
  /\ spec_strip_one_prefix "module.model.fc.weight" = "model.fc.weight"
  /\ strip_prefixes "module.model.fc.weight"
       <> spec_strip_one_prefix "module.model.fc.weight"
  /\ clean_state_dict [("module.model.fc.weight", some_tensor)]
       = [("fc.weight", some_tensor)].
Proof.
  repeat split; try reflexivity. discriminate.
Qed.

(** C1, amended: the key loses a leading [module.] when it has one, and
    then a leading [model.] when what is left has one; each prefix is
    removed at most once, and both are removed from [module.model.]. *)
Theorem C1_strip_prefixes_in_sequence (rest : string) :
  strip_prefixes ("module.model." ++ rest) = rest
  /\ strip_prefixes ("model." ++ rest) = rest
  /\ (startswith rest "model." = false ->
      strip_prefixes ("module." ++ rest) = rest)
  /\ (startswith rest "module." = false -> startswith rest "model." = false ->
      strip_prefixes rest = rest).
Proof.
  split; [apply strip_both|].
  split; [apply strip_model_once|].
  split; [apply strip_module_only | apply strip_nothing].
Qed.

Lemma C1_strip_prefixes_in_sequence_witness :
  strip_prefixes "module.fc.weight" = "fc.weight"
  /\ strip_prefixes "fc.weight" = "fc.weight"
  /\ strip_prefixes "model.model.fc.weight" = "model.fc.weight"
  /\ strip_prefixes "model.module.fc.weight" = "module.fc.weight".
Proof.
  split.
  - exact (proj1 (proj2 (proj2 (C1_strip_prefixes_in_sequence "fc.weight"))) eq_refl).
  - split.
    + exact (proj2 (proj2 (proj2 (C1_strip_prefixes_in_sequence "fc.weight")))
               eq_refl eq_refl).
    + split.
      * exact (proj1 (proj2 (C1_strip_prefixes_in_sequence "model.fc.weight"))).
      * exact (proj1 (proj2 (C1_strip_prefixes_in_sequence "module.fc.weight"))).
Defined.

(** ** Dicts *)

Lemma mem_In (k : string) (names : list string) :
  mem k names = true <-> In k names.
Proof.
  unfold mem. rewrite existsb_exists. split.
  - intros [x [Hin Heq]]. apply String.eqb_eq in Heq. subst. exact Hin.
  - intros Hin. exists k. split; [exact Hin | apply String.eqb_refl].
Qed.

Lemma contains_In {V : Type} (d : dict V) (k : string) :
  contains d k = true <-> In k (keys d).
Proof.
  unfold contains, keys. induction d as [|[k' v] d IH]; simpl.
  - split; [discriminate | contradiction].
  - destruct (String.eqb_spec k k') as [->|Hne].
    + split; auto.
    + rewrite IH. split; [auto | intros [Heq|Hin]; [congruence | exact Hin]].
Qed.

Lemma get_app {V : Type} (d1 d2 : dict V) (k : string) :
  get (d1 ++ d2) k = match get d1 k with Some v => Some v | None => get d2 k end.
Proof.
  induction d1 as [|[k' v] d1 IH]; simpl; [reflexivity|].
  destruct (String.eqb k k'); [reflexivity | exact IH].
Qed.

Lemma dict_get_contains (d : dict pyobj) (k : string) (v : pyobj) :
  dict_get d k = v -> v <> PyNone -> contains d k = true.
Proof.
  unfold dict_get, contains. destruct (get d k); intros H Hv; congruence.
Qed.

(** ** Model loading *)


(** Whatever the extraction yields, [load_model] goes on only with a
    mapping: [None] gives the RuntimeError of line 128, any other value
    fails at [.items()]. *)
Lemma load_model_needs_mapping (cfg : Config) (blob x : pyobj) :
  extract_state_dict blob = Ok x -> (forall d, x <> PyDict d) ->
  exists e, load_model cfg (Ok blob) = Raise e.
Proof.
  intros Hx Hnd. unfold load_model. rewrite Hx.
  destruct x; simpl; eauto. exfalso. exact (Hnd d eq_refl).
Qed.

Lemma load_model_extraction_raises (cfg : Config) (blob : pyobj) (e : exn) :
  extract_state_dict blob = Raise e -> load_model cfg (Ok blob) = Raise e.
Proof. intros Hx. unfold load_model. rewrite Hx. reflexivity. Qed.



Lemma load_into_nil (ps : dict Param) : load_into ps [] = Some ps.
Proof.
  induction ps as [|[name p] ps IH]; simpl; [reflexivity|].
  rewrite IH. reflexivity.
Qed.

Lemma filter_all {A : Type} (f : A -> bool) (l : list A) :
  (forall x, In x l -> f x = true) -> filter f l = l.
Proof.
  induction l as [|a l IH]; simpl; intros H; [reflexivity|].
  rewrite (H a (or_introl eq_refl)). f_equal. apply IH. auto.
Qed.

(** Loading the empty mapping changes nothing and reports every entry
    as missing. *)
Lemma load_state_dict_nil (m : ResNet) :
  load_state_dict m [] false = Ok (m, (keys (Torch.state_dict m), [])).
Proof.
  destruct m as [ls [i o w b] t d]. unfold load_state_dict, load_fc.
  rewrite load_into_nil. simpl.
  unfold missing_keys. rewrite filter_all by reflexivity. reflexivity.
Qed.

(** A wrapper key that holds a non-empty mapping is unwrapped to it,
    whichever of the three keys it is. *)
Lemma extract_nonempty_wrapper (k : string) (kv : string * pyobj) (D : dict pyobj) :
  In k wrapper_keys ->
  extract_state_dict (PyDict [(k, PyDict (kv :: D))]) = Ok (PyDict (kv :: D)).
Proof.
  intros [<-|[<-|[<-|[]]]]; reflexivity.
Qed.

(** C5 at the empty nested mapping: under [state_dict] and [model_state]
    the extraction yields [None] and [load_model] raises; under
    [model_state_dict] it yields the empty mapping and [load_model]
    returns. *)
Theorem C5_empty_mapping_depends_on_wrapper_key (cfg : Config) :
  extract_state_dict (PyDict [("state_dict", PyDict [])]) = Ok PyNone
  /\ extract_state_dict (PyDict [("model_state", PyDict [])]) = Ok PyNone
  /\ extract_state_dict (PyDict [("model_state_dict", PyDict [])]) = Ok (PyDict [])
  /\ load_model cfg (Ok (PyDict [("state_dict", PyDict [])])) = Raise no_state_dict
  /\ load_model cfg (Ok (PyDict [("model_state_dict", PyDict [])]))
       = Ok (eval (to (build_classifier cfg false) (device cfg))).
Proof.
  repeat split.
  unfold load_model.
  change (extract_state_dict (PyDict [("model_state_dict", PyDict [])]))
    with (@Ok pyobj (PyDict [])).
  cbn -[load_state_dict build_classifier Torch.state_dict].
  rewrite load_state_dict_nil. reflexivity.
Qed.




(** ** Partial loading *)

Lemma load_entry_copyable (sd : dict pyobj) (name : string) (p : Param) :
  (forall v, get sd name = Some v -> copy_param p v <> None) ->
  exists p', load_entry sd name p = Some p'
             /\ p_shape p' = p_shape p
             /\ (get sd name = None -> p' = p).
Proof.
  intros H. unfold load_entry. destruct (get sd name) as [v|] eqn:Hget.
  - specialize (H v eq_refl). unfold copy_param in *.
    destruct v; try congruence.
    destruct (shape_eqb (t_shape t) (p_shape p)); [|congruence].
    eexists. split; [reflexivity|]. split; [reflexivity | discriminate].
  - exists p. auto.
Qed.

Lemma load_into_copyable (ps : dict Param) (sd : dict pyobj) :
  copyable ps sd ->
  exists ps', load_into ps sd = Some ps'
              /\ forall name, get sd name = None -> get ps' name = get ps name.
Proof.
  induction ps as [|[n p] ps IH]; intros Hc.
  - exists []. split; reflexivity.
  - destruct IH as [ps' [Hps' Hkeep]].
    { intros name q v Hin. apply Hc. right. exact Hin. }
    destruct (load_entry_copyable sd n p) as [p' [Hp' [_ Hsame]]].
    { intros v. apply Hc. left. reflexivity. }
    exists ((n, p') :: ps'). simpl. rewrite Hp', Hps'. split; [reflexivity|].
    intros name Hnone. destruct (String.eqb_spec name n) as [->|_].
    + rewrite (Hsame Hnone). reflexivity.
    + apply Hkeep. exact Hnone.
Qed.

(** With [strict=False], a mapping whose values can be copied is loaded
    whatever entries it leaves out, and the entries it leaves out keep
    their value. *)
Lemma load_state_dict_partial (m : ResNet) (sd : dict pyobj) :
  copyable (Torch.state_dict m) sd ->
  exists m',
    load_state_dict m sd false
      = Ok (m', (missing_keys (Torch.state_dict m) sd,
                 unexpected_keys (Torch.state_dict m) sd))
    /\ training m' = training m /\ dev m' = dev m
    /\ forall name, get sd name = None ->
         get (Torch.state_dict m') name = get (Torch.state_dict m) name.
Proof.
  intros Hc. unfold Torch.state_dict in Hc.
  destruct (load_into_copyable (layers m) sd) as [ls [Hls Hkeep]].
  { intros name p v Hin. apply Hc. apply in_or_app. left. exact Hin. }
  destruct (load_entry_copyable sd "fc.weight" (fc_weight (fc m)))
    as [w [Hw [_ Hwsame]]].
  { intros v. apply Hc. apply in_or_app. right. left. reflexivity. }
  destruct (load_entry_copyable sd "fc.bias" (fc_bias (fc m)))
    as [b [Hb [_ Hbsame]]].
  { intros v. apply Hc. apply in_or_app. right. right. left. reflexivity. }
  eexists. unfold load_state_dict, load_fc. rewrite Hls, Hw, Hb. simpl.
  split; [reflexivity|]. split; [reflexivity|]. split; [reflexivity|].
  intros name Hnone. unfold Torch.state_dict. simpl.
  rewrite !get_app, (Hkeep name Hnone).
  destruct (get (layers m) name); [reflexivity|]. simpl.
  destruct (String.eqb_spec name "fc.weight") as [->|_].
  - rewrite (Hwsame Hnone). reflexivity.
  - destruct (String.eqb_spec name "fc.bias") as [->|_]; [|reflexivity].
    rewrite (Hbsame Hnone). reflexivity.
Qed.

Lemma filter_state_dict_In (cleaned : dict pyobj) (model_keys : list string)
    (kv : string * pyobj) :
  In kv (filter_state_dict cleaned model_keys)
  <-> In kv cleaned /\ In (fst kv) model_keys.
Proof.
  unfold filter_state_dict. rewrite filter_In, mem_In. reflexivity.
Qed.

Lemma filter_state_dict_keys (cleaned : dict pyobj) (model_keys : list string)
    (k : string) :
  In k (keys (filter_state_dict cleaned model_keys)) -> In k model_keys.
Proof.
  unfold keys. rewrite in_map_iff. intros [kv [<- Hin]].
  apply filter_state_dict_In in Hin. tauto.
Qed.

Lemma filter_none {A : Type} (f : A -> bool) (l : list A) :
  (forall x, In x l -> f x = false) -> filter f l = [].
Proof.
  induction l as [|a l IH]; simpl; intros H; [reflexivity|].
  rewrite (H a (or_introl eq_refl)). apply IH. auto.
Qed.

(** C6: the mapping [load_model] hands to [load_state_dict] holds only
    names of the model's own entries: a cleaned key is kept exactly when
    it is such a name, nothing is reported unexpected, and when the kept
    values can be copied the model is returned whatever entries the
    mapping leaves out, those entries keeping their initialisation. *)
Theorem C6_loaded_keys_are_parameter_names
    (cfg : Config) (state : pyobj) (its : dict pyobj) :
  extract_state_dict state = Ok (PyDict its) ->
  let model := build_classifier cfg false in
  let model_keys := keys (Torch.state_dict model) in
  let filtered := filter_state_dict (clean_state_dict its) model_keys in
  load_model cfg (Ok state)
    = (r <- load_state_dict model filtered false ;;
       Ok (eval (to (fst r) (device cfg))))
  /\ (forall k, In k (keys filtered) -> In k model_keys)
  /\ (forall kv, In kv (clean_state_dict its) ->
        (In kv filtered <-> In (fst kv) model_keys))
  /\ unexpected_keys (Torch.state_dict model) filtered = []
  /\ (copyable (Torch.state_dict model) filtered ->
      exists m,
        load_model cfg (Ok state) = Ok m
        /\ forall name, get filtered name = None ->
             get (Torch.state_dict m) name = get (Torch.state_dict model) name).
Proof.
  intros Hx model model_keys filtered.
  assert (Hload : load_model cfg (Ok state)
                  = (r <- load_state_dict model filtered false ;;
                     Ok (eval (to (fst r) (device cfg))))).
  { unfold load_model. rewrite Hx. reflexivity. }
  split; [exact Hload|].
  split; [intros k; apply filter_state_dict_keys|].
  split.
  { intros kv Hin. unfold filtered. rewrite filter_state_dict_In. tauto. }
  split.
  { unfold unexpected_keys. apply filter_none. intros k Hk.
    apply filter_state_dict_keys in Hk.
    apply contains_In in Hk. rewrite Hk. reflexivity. }
  intros Hc. destruct (load_state_dict_partial model filtered Hc)
    as [m' [Hm' [_ [_ Hkeep]]]].
  exists (eval (to m' (device cfg))). split.
  - rewrite Hload, Hm'. reflexivity.
  - exact Hkeep.
Qed.

Lemma C6_loaded_keys_are_parameter_names_witness :
  filter_state_dict (clean_state_dict detector_checkpoint)
      (keys (Torch.state_dict (build_classifier example_cfg false)))
    = [("fc.bias", some_tensor)]
  /\ unexpected_keys (Torch.state_dict (build_classifier example_cfg false))
       (filter_state_dict (clean_state_dict detector_checkpoint)
          (keys (Torch.state_dict (build_classifier example_cfg false))))
     = [].
Proof.
  split; [reflexivity|].
  exact (proj1 (proj2 (proj2 (proj2
    (C6_loaded_keys_are_parameter_names example_cfg
       (PyDict detector_checkpoint) detector_checkpoint eq_refl))))).
Defined.

(** ** Result store *)

(** A connection the pool has just handed out is accepted back, and the
    pool then has the connections out that it had before. *)
Lemma putconn_after_getconn (pool pool1 : SimpleConnectionPool)
    (connect : option exn) (c : connection) :
  getconn pool connect = (Ok c, pool1) ->
  exists pool2, putconn pool1 c = Ok pool2 /\ used pool2 = used pool.
Proof.
  unfold getconn. destruct (Nat.leb (maxconn pool) (List.length (used pool)));
    [discriminate|].
  destruct connect; [discriminate|]. intros H. injection H as <- <-.
  unfold putconn. simpl. rewrite Nat.eqb_refl. simpl.
  eexists. split; reflexivity.
Qed.

Lemma getconn_refused (pool pool1 : SimpleConnectionPool)
    (connect : option exn) (e : exn) :
  getconn pool connect = (Raise e, pool1) -> pool1 = pool.
Proof.
  unfold getconn. destruct (Nat.leb (maxconn pool) (List.length (used pool))).
  - intros H. injection H as _ <-. reflexivity.
  - destruct connect; [|discriminate]. intros H. injection H as _ <-. reflexivity.
Qed.

(** What the body of the [try] leaves behind: no connection and the pool
    as it was, or the connection [getconn] returned. *)
Lemma save_try_cases (db : DbCalls) (pool : SimpleConnectionPool)
    (rows : list Row) (row : Row) :
  (exists e, save_try db pool rows row = (None, Raise e, pool, rows))
  \/ (exists c body pool1 rows1,
        save_try db pool rows row = (Some c, body, pool1, rows1)
        /\ getconn pool (on_getconn db) = (Ok c, pool1)).
Proof.
  unfold save_try. destruct (getconn pool (on_getconn db)) as [[c|e] pool1] eqn:Hg.
  - right.
    destruct (call (on_cursor db)); [|eauto 8].
    destruct (call (on_execute db)); [|eauto 8].
    destruct (call (on_commit db)); eauto 8.
  - left. apply getconn_refused in Hg. subst. eauto.
Qed.

Lemma save_returns (db : DbCalls) (results : list Prediction)
    (orig_w orig_h : nat) (src : option string) (w : World) :
  fst (_save_predictions_to_db db results orig_w orig_h src w) = Ok tt
  /\ option_map used
       (_db_pool (snd (_save_predictions_to_db db results orig_w orig_h src w)))
     = option_map used (_db_pool w).
Proof.
  unfold _save_predictions_to_db. destruct (_db_pool w) as [pool|] eqn:Hp.
  - destruct (save_try_cases db pool (table w) (mkRow src orig_w orig_h results))
      as [[e ->] | [c [body [pool1 [rows1 [-> Hg]]]]]].
    + split; reflexivity.
    + destruct (putconn_after_getconn _ _ _ _ Hg) as [pool2 [-> Hused]].
      simpl. rewrite Hused. split; [|reflexivity].
      destruct body as [[]|e]; reflexivity.
  - simpl. rewrite Hp. split; reflexivity.
Qed.


(** ** The predict endpoint *)


Lemma predict_failure (cfg : Config) (env : Calls) (file : UploadFile) (w : World)
    (e : exn) :
  infer env file = Raise e
  \/ (exists image probs,
        infer env file = Ok (image, probs)
        /\ prediction_results cfg probs = Raise e) ->
  predict cfg env file w = (mkResponse 500 (Error (exn_text e)), w).
Proof.
  unfold predict, predict_try. intros [Hi | [image [probs [Hi Hr]]]]; rewrite Hi.
  - reflexivity.
  - rewrite Hr. destruct (size image). reflexivity.
Qed.





Lemma infer_decode_failure (env : Calls) (file : UploadFile) (bytes : list byte)
    (e : exn) :
  read env file = Ok bytes -> Image_open env bytes = Raise e ->
  infer env file = Raise e.
Proof.
  unfold infer. intros Hr Ho. rewrite Hr. simpl. rewrite Ho. reflexivity.
Qed.

(** C8, as stated, fails: an exception without text is answered with the
    empty error message. *)
Lemma C8_error_message_can_be_empty :
  infer silent_failure_env upload = Raise (mkExn "NotImplementedError" "")
  /\ predict example_cfg silent_failure_env upload pooled_world
     = (mkResponse 500 (Error ""), pooled_world).
Proof. split; reflexivity. Qed.

(** C8, amended: when decoding the upload fails, or reading it,
    preprocessing, the forward pass or the top-k selection raises, the
    response has status 500 and carries the text of the exception, and
    the store and the pool are as they were. *)
Theorem C8_failed_request_is_500_unsaved
    (cfg : Config) (env : Calls) (file : UploadFile) (w : World) (e : exn) :
  (exists bytes, read env file = Ok bytes /\ Image_open env bytes = Raise e)
  \/ infer env file = Raise e
  \/ (exists image probs,
        infer env file = Ok (image, probs)
        /\ prediction_results cfg probs = Raise e) ->
  predict cfg env file w = (mkResponse 500 (Error (exn_text e)), w).
Proof.
  intros [[bytes [Hr Ho]] | H]; apply predict_failure.
  - left. eapply infer_decode_failure; eassumption.
  - exact H.
Qed.

Lemma C8_failed_request_is_500_unsaved_witness :
  predict example_cfg undecodable_env upload pooled_world
    = (mkResponse 500 (Error "cannot identify image file"), pooled_world).
Proof.
  apply (C8_failed_request_is_500_unsaved example_cfg undecodable_env upload
           pooled_world (mkExn "UnidentifiedImageError" "cannot identify image file")).
  left. exists [xff; xd8; xff]. split; reflexivity.
Defined.

(** ** Ranking of the classes *)




Lemma insert_ranked_perm (a : Q * nat) (l : list (Q * nat)) :
  Permutation (a :: l) (insert_ranked a l).
Proof.
  induction l as [|b r IH]; simpl; [reflexivity|].
  destruct (ranks_before a b); [reflexivity|].
  rewrite perm_swap. apply perm_skip. exact IH.
Qed.

Lemma sort_ranked_perm (l : list (Q * nat)) : Permutation l (sort_ranked l).
Proof.
  induction l as [|a l IH]; simpl; [reflexivity|].
  rewrite <- insert_ranked_perm. apply perm_skip. exact IH.
Qed.





Lemma combine_seq_In (l : list Q) (s : nat) (p : Q) (i : nat) :
  In (p, i) (combine l (seq s (List.length l)))
  <-> s <= i /\ nth_error l (i - s) = Some p.
Proof.
  revert s. induction l as [|q l IH]; intros s; simpl.
  - split; [contradiction|]. intros [_ H]. destruct (i - s); discriminate.
  - rewrite IH. split.
    + intros [Heq|[Hle Hn]].
      * injection Heq as -> ->. rewrite Nat.sub_diag. auto.
      * split; [lia|]. replace (i - s) with (S (i - S s)) by lia. exact Hn.
    + intros [Hle Hn]. destruct (i - s) as [|k] eqn:Hk.
      * left. injection Hn as ->. f_equal. lia.
      * right. split; [lia|]. replace (i - S s) with k by lia. exact Hn.
Qed.

Lemma enumerate_In (l : list Q) (p : Q) (i : nat) :
  In (p, i) (enumerate l) <-> nth_error l i = Some p.
Proof.
  unfold enumerate. rewrite combine_seq_In, Nat.sub_0_r.
  split; [tauto | split; [lia | assumption]].
Qed.

Lemma enumerate_length (l : list Q) : List.length (enumerate l) = List.length l.
Proof.
  unfold enumerate. rewrite length_combine, length_seq. apply Nat.min_id.
Qed.


Lemma ranking_In (probs : list Q) (p : Q) (i : nat) :
  In (p, i) (sort_ranked (enumerate probs)) <-> nth_error probs i = Some p.
Proof.
  rewrite <- enumerate_In. split; apply Permutation_in.
  - apply Permutation_sym. apply sort_ranked_perm.
  - apply sort_ranked_perm.
Qed.

Lemma ranking_length (probs : list Q) :
  List.length (sort_ranked (enumerate probs)) = List.length probs.
Proof.
  rewrite <- (Permutation_length (sort_ranked_perm (enumerate probs))).
  apply enumerate_length.
Qed.

(** ** Rounding *)

Lemma round_half_even_bounds (x : Q) :
  (Qfloor x <= round_half_even x <= Qfloor x + 1)%Z.
Proof.
  unfold round_half_even.
  destruct (Qcompare (x - inject_Z (Qfloor x)) (1 # 2)); [|lia|lia].
  destruct (Z.even (Qfloor x)); lia.
Qed.

Lemma round_half_even_mono (x y : Q) :
  (x <= y)%Q -> (round_half_even x <= round_half_even y)%Z.
Proof.
  intros Hxy. pose proof (Qfloor_resp_le x y Hxy) as Hf.
  destruct (Z.eq_dec (Qfloor x) (Qfloor y)) as [Heq|Hne].
  - unfold round_half_even. rewrite <- Heq.
    destruct (Qcompare_spec (x - inject_Z (Qfloor x)) (1 # 2)) as [Hx|Hx|Hx];
      destruct (Qcompare_spec (y - inject_Z (Qfloor x)) (1 # 2)) as [Hy|Hy|Hy];
      try destruct (Z.even (Qfloor x)); try lia; exfalso; lra.
  - pose proof (round_half_even_bounds x). pose proof (round_half_even_bounds y).
    lia.
Qed.



Lemma round3_mono (x y : Q) : (x <= y)%Q -> (round3 x <= round3 y)%Q.
Proof.
  intros H. unfold round3, Qle. simpl.
  apply Z.mul_le_mono_nonneg_r; [lia|].
  apply round_half_even_mono. lra.
Qed.


(** ** From the ranking to the results *)

Lemma collect_results_from (cfg : Config) (pre top : list (Q * nat))
    (acc : list Prediction) :
  fold_left
    (fun results i =>
       let label := label_of cfg (nth i (map snd (pre ++ top)) 0) in
       let conf := nth i (map fst (pre ++ top)) 0%Q in
       if Qle_bool (SCORE_THRESHOLD cfg) conf
       then results ++ [mkPrediction label (round3 conf)]
       else results)
    (seq (List.length pre) (List.length top)) acc
  = acc ++ map (to_prediction cfg) (filter (passes cfg) top).
Proof.
  revert pre acc. induction top as [|x t IH]; intros pre acc.
  - simpl. rewrite app_nil_r. reflexivity.
  - cbn [List.length seq fold_left].
    rewrite !map_app. cbn [map].
    assert (Hf : nth (List.length pre) (map fst pre ++ fst x :: map fst t) 0%Q
                 = fst x).
    { rewrite <- (length_map fst pre). apply nth_middle. }
    assert (Hs : nth (List.length pre) (map snd pre ++ snd x :: map snd t) 0
                 = snd x).
    { rewrite <- (length_map snd pre). apply nth_middle. }
    rewrite Hf, Hs.
    specialize (IH (pre ++ [x])).
    rewrite length_app, Nat.add_1_r, <- app_assoc in IH. cbn [app] in IH.
    rewrite !map_app in IH. cbn [map] in IH.
    rewrite IH. cbn [filter]. unfold passes at 2.
    destruct (Qle_bool (SCORE_THRESHOLD cfg) (fst x)).
    + rewrite <- app_assoc. reflexivity.
    + reflexivity.
Qed.

Lemma collect_results_filter (cfg : Config) (top : list (Q * nat)) :
  collect_results cfg (map fst top) (map snd top)
  = map (to_prediction cfg) (filter (passes cfg) top).
Proof.
  unfold collect_results. rewrite length_map.
  exact (collect_results_from cfg [] top []).
Qed.

Lemma firstn_In {A : Type} (n : nat) (l : list A) (x : A) :
  In x (firstn n l) -> In x l.
Proof.
  intros H. rewrite <- (firstn_skipn n l). apply in_or_app. left. exact H.
Qed.


Lemma StronglySorted_filter {A : Type} (R : A -> A -> Prop) (f : A -> bool)
    (l : list A) :
  StronglySorted R l -> StronglySorted R (filter f l).
Proof.
  induction 1 as [|a l Hl IH Ha]; simpl; [constructor|].
  destruct (f a); [|exact IH]. constructor; [exact IH|].
  forall_elements x Hx. apply Ha.
  apply filter_In in Hx. tauto.
Qed.

Lemma StronglySorted_map {A B : Type} (R : A -> A -> Prop) (S : B -> B -> Prop)
    (f : A -> B) (l : list A) :
  (forall a b, R a b -> S (f a) (f b)) ->
  StronglySorted R l -> StronglySorted S (map f l).
Proof.
  intros HRS. induction 1 as [|a l Hl IH Ha]; simpl; constructor; [exact IH|].
  forall_elements y Hy.
  apply in_map_iff in Hy. destruct Hy as [x [<- Hx]]. auto.
Qed.


(** Whatever order a selection gives to equal values: when its values
    fall, the loop returns at most as many entries as were selected, with
    falling confidences, each the rounding of a value that is at least
    the threshold. *)
Lemma collect_results_of_selection (cfg : Config) (top : list (Q * nat)) :
  StronglySorted (fun a b => (fst b <= fst a)%Q) top ->
  List.length (collect_results cfg (map fst top) (map snd top)) <= List.length top
  /\ falling (collect_results cfg (map fst top) (map snd top))
  /\ (forall r, In r (collect_results cfg (map fst top) (map snd top)) ->
        exists a, In a top /\ r = to_prediction cfg a
                  /\ (SCORE_THRESHOLD cfg <= fst a)%Q
                  /\ (round3 (SCORE_THRESHOLD cfg) <= confidence r)%Q).
Proof.
  intros Hs. rewrite collect_results_filter. split.
  { rewrite length_map. apply filter_length_le. }
  split.
  { unfold falling.
    apply StronglySorted_map with (R := fun a b => (fst b <= fst a)%Q).
    - intros a b Hab. simpl. apply round3_mono. exact Hab.
    - apply StronglySorted_filter. exact Hs. }
  intros r Hr. apply in_map_iff in Hr. destruct Hr as [a [<- Ha]].
  apply filter_In in Ha. destruct Ha as [Hin Ha]. unfold passes in Ha.
  apply Qle_bool_iff in Ha. exists a.
  split; [exact Hin|]. split; [reflexivity|]. split; [exact Ha|].
  simpl. apply round3_mono. exact Ha.
Qed.

Lemma topk_Ok (probs : list Q) (k : nat) (scores : list Q) (indices : list nat) :
  topk probs k = Ok (scores, indices) ->
  k <= List.length probs
  /\ scores = map fst (firstn k (sort_ranked (enumerate probs)))
  /\ indices = map snd (firstn k (sort_ranked (enumerate probs))).
Proof.
  unfold topk. destruct (Nat.ltb_spec (List.length probs) k); [discriminate|].
  intros H'. injection H' as <- <-. auto.
Qed.

Lemma topk_selection (probs : list Q) :
  3 <= List.length probs ->
  topk probs 3
  = Ok (map fst (firstn 3 (sort_ranked (enumerate probs))),
        map snd (firstn 3 (sort_ranked (enumerate probs)))).
Proof.
  intros H. unfold topk.
  destruct (Nat.ltb_spec (List.length probs) 3); [lia | reflexivity].
Qed.

Lemma passes_iff (cfg : Config) (a : Q * nat) :
  passes cfg a = true <-> (SCORE_THRESHOLD cfg <= fst a)%Q.
Proof. unfold passes. apply Qle_bool_iff. Qed.







(* ================================================================== *)
(** * Further properties of server.py *)
(* ================================================================== *)

(** ** The store over one write and over a process *)

(** X1: with a pool, the write appends exactly the row (source, width,
    height, results) when the pool has a connection to give and getconn,
    cursor, execute and commit all succeed, whatever [cur.close()] does
    afterwards; in every other case the table is as it was. *)
Theorem X1_row_written_iff_committed
    (db : DbCalls) (results : list Prediction) (orig_w orig_h : nat)
    (src : option string) (pool : SimpleConnectionPool) (rows : list Row) :
  table (snd (_save_predictions_to_db db results orig_w orig_h src
                (mkWorld (Some pool) rows)))
  = if Nat.ltb (List.length (used pool)) (maxconn pool)
       && succeeds (on_getconn db) && succeeds (on_cursor db)
       && succeeds (on_execute db) && succeeds (on_commit db)
    then rows ++ [mkRow src orig_w orig_h results]
    else rows.
Proof.
  unfold _save_predictions_to_db, save_try, getconn, putconn. simpl.
  rewrite Nat.ltb_antisym.
  destruct (Nat.leb (maxconn pool) (List.length (used pool))); simpl;
    [reflexivity|].
  destruct db as [[g|] [c|] [e|] [m|] cl]; simpl; rewrite ?Nat.eqb_refl; simpl;
    try reflexivity.
Qed.

(** The write leaves the table as it was or appends its one row. *)
Lemma save_table_cases (db : DbCalls) (results : list Prediction)
    (orig_w orig_h : nat) (src : option string) (w : World) :
  table (snd (_save_predictions_to_db db results orig_w orig_h src w)) = table w
  \/ table (snd (_save_predictions_to_db db results orig_w orig_h src w))
     = table w ++ [mkRow src orig_w orig_h results].
Proof.
  unfold _save_predictions_to_db. destruct (_db_pool w) as [pool|]; [|left; reflexivity].
  unfold save_try, getconn, putconn.
  destruct (Nat.leb (maxconn pool) (List.length (used pool))); simpl;
    [left; reflexivity|].
  destruct db as [[g|] [c|] [e|] [m|] cl]; simpl; rewrite ?Nat.eqb_refl; simpl;
    auto.
Qed.

(** What one request does to the table: nothing, or one row appended that
    repeats the 200 response. *)
Lemma predict_table (cfg : Config) (env : Calls) (file : UploadFile) (w : World) :
  table (snd (predict cfg env file w)) = table w
  \/ exists width height preds,
       fst (predict cfg env file w)
         = mkResponse 200 (Predictions (filename file) width height preds)
       /\ table (snd (predict cfg env file w))
          = table w ++ [mkRow (filename file) width height preds].
Proof.
  unfold predict, predict_try.
  destruct (infer env file) as [[image probs]|e]; [|left; reflexivity].
  destruct (size image) as [ow oh].
  destruct (prediction_results cfg probs) as [results|e]; [|left; reflexivity].
  pose proof (save_returns (db_calls env) results ow oh (filename file) w) as [Hok _].
  pose proof (save_table_cases (db_calls env) results ow oh (filename file) w) as Ht.
  destruct (_save_predictions_to_db (db_calls env) results ow oh (filename file) w)
    as [[u|e] w']; simpl in *; [|discriminate].
  destruct Ht as [Ht|Ht]; [left; exact Ht|].
  right. exists ow, oh, results. split; [reflexivity | exact Ht].
Qed.

(** X2: a request adds a row to the table only when it is answered 200,
    and the row then holds the file name, the width, the height and the
    predictions of that response; otherwise the table is as it was. *)
Theorem X2_stored_row_repeats_response
    (cfg : Config) (env : Calls) (file : UploadFile) (w : World) :
  table (snd (predict cfg env file w)) = table w
  \/ exists width height preds,
       fst (predict cfg env file w)
         = mkResponse 200 (Predictions (filename file) width height preds)
       /\ table (snd (predict cfg env file w))
          = table w ++ [mkRow (filename file) width height preds]
       /\ exists image probs,
            infer env file = Ok (image, probs)
            /\ size image = (width, height)
            /\ prediction_results cfg probs = Ok preds.
Proof.
  destruct (predict_table cfg env file w) as [H|[width [height [preds [Hr Ht]]]]];
    [left; exact H|].
  right. exists width, height, preds. split; [exact Hr|]. split; [exact Ht|].
  unfold predict, predict_try in Hr.
  destruct (infer env file) as [[image probs]|e]; [|discriminate].
  destruct (size image) as [ow oh] eqn:Hsize.
  destruct (prediction_results cfg probs) as [results|e] eqn:Hres; [|discriminate].
  destruct (_save_predictions_to_db (db_calls env) results ow oh (filename file) w)
    as [[u|e] w']; simpl in Hr; [|discriminate].
  injection Hr as <- <- <-. exists image, probs.
  split; [reflexivity|]. split; [exact Hsize | exact Hres].
Qed.

(** X3: over any sequence of requests the table only grows at its end:
    the rows it had stay, in place, and at most one row is added for each
    request answered 200. *)
Theorem X3_store_is_append_only
    (cfg : Config) (requests : list (Calls * UploadFile)) (w : World) :
  exists added,
    table (snd (serve cfg requests w)) = table w ++ added
    /\ List.length added
       <= List.length (filter answered_200 (fst (serve cfg requests w))).
Proof.
  revert w. induction requests as [|[env file] rest IH]; intros w.
  - exists []. simpl. rewrite app_nil_r. split; [reflexivity | apply Nat.le_refl].
  - simpl.
    pose proof (predict_table cfg env file w) as Hp.
    destruct (predict cfg env file w) as [response w1]. simpl in Hp.
    destruct (IH w1) as [added [Ht Hl]].
    destruct (serve cfg rest w1) as [responses w2]. simpl in *.
    destruct Hp as [Hsame | [width [height [preds [-> Hrow]]]]].
    + exists added. rewrite Ht, Hsame. split; [reflexivity|].
      destruct (answered_200 response); simpl; lia.
    + exists (mkRow (filename file) width height preds :: added).
      rewrite Ht, Hrow, <- app_assoc. split; [reflexivity|].
      simpl. lia.
Qed.




(** ** Labels and confidences of the results *)

Lemma str_of_nat_injective (i j : nat) : str_of_nat i = str_of_nat j -> i = j.
Proof.
  unfold str_of_nat. intros H.
  assert (Hu : Nat.to_uint i = Nat.to_uint j).
  { assert (Hs : Some (Nat.to_uint i) = Some (Nat.to_uint j)).
    { rewrite <- !NilEmpty.usu, H. reflexivity. }
    injection Hs as Hs. exact Hs. }
  rewrite <- (Unsigned.of_to i), <- (Unsigned.of_to j), Hu. reflexivity.
Qed.

(** X5: two classes that both lack an entry in LABELS get different
    placeholder labels [class_<index>]. *)
Theorem X5_placeholder_labels_are_distinct (cfg : Config) (i j : nat) :
  get (LABELS cfg) (str_of_nat i) = None ->
  get (LABELS cfg) (str_of_nat j) = None ->
  label_of cfg i = label_of cfg j ->
  i = j.
Proof.
  unfold label_of. intros -> -> H. simpl in H.
  injection H as H. apply str_of_nat_injective. exact H.
Qed.

Lemma X5_placeholder_labels_are_distinct_witness :
  label_of example_cfg 2 = "class_2" /\ (2 = 2)%nat.
Proof.
  split; [reflexivity|].
  exact (X5_placeholder_labels_are_distinct example_cfg 2 2 eq_refl eq_refl eq_refl).
Defined.





(** When the selection succeeds the results are the entries of the
    classes among the first three of the ranking that pass the threshold. *)
Lemma prediction_results_Ok (cfg : Config) (probs : list Q)
    (results : list Prediction) :
  prediction_results cfg probs = Ok results ->
  3 <= List.length probs
  /\ results = map (to_prediction cfg)
                 (filter (passes cfg) (firstn 3 (sort_ranked (enumerate probs)))).
Proof.
  unfold prediction_results. destruct (topk probs 3) as [[scores indices]|e] eqn:Ht;
    [|discriminate].
  simpl. intros H. injection H as <-.
  apply topk_Ok in Ht. destruct Ht as [Hlen [-> ->]].
  split; [exact Hlen | apply collect_results_filter].
Qed.



Lemma prediction_results_selection (cfg : Config) (probs : list Q) :
  3 <= List.length probs ->
  prediction_results cfg probs
  = Ok (map (to_prediction cfg)
          (filter (passes cfg) (firstn 3 (sort_ranked (enumerate probs))))).
Proof.
  intros Hlen. unfold prediction_results. rewrite (topk_selection probs Hlen).
  simpl. rewrite collect_results_filter. reflexivity.
Qed.

Lemma filter_length_implies {A : Type} (f g : A -> bool) (l : list A) :
  (forall x, f x = true -> g x = true) ->
  List.length (filter f l) <= List.length (filter g l).
Proof.
  intros Hfg. induction l as [|a l IH]; simpl; [apply Nat.le_refl|].
  destruct (f a) eqn:Hf.
  - rewrite (Hfg a Hf). simpl. lia.
  - destruct (g a); simpl; lia.
Qed.

(** X7: with the same labels, raising the threshold only removes entries:
    the results under the higher threshold are all among the results
    under the lower one, and are no more. *)
Theorem X7_higher_threshold_drops_entries
    (cfg1 cfg2 : Config) (probs : list Q) (results1 : list Prediction) :
  LABELS cfg1 = LABELS cfg2 ->
  (SCORE_THRESHOLD cfg1 <= SCORE_THRESHOLD cfg2)%Q ->
  prediction_results cfg1 probs = Ok results1 ->
  exists results2,
    prediction_results cfg2 probs = Ok results2
    /\ incl results2 results1
    /\ List.length results2 <= List.length results1.
Proof.
  intros Hlabels Hthr Hres. apply prediction_results_Ok in Hres.
  destruct Hres as [Hlen ->].
  assert (Hpass : forall a, passes cfg2 a = true -> passes cfg1 a = true).
  { intros a Ha. apply passes_iff in Ha. apply passes_iff. lra. }
  assert (Hentry : forall a, to_prediction cfg2 a = to_prediction cfg1 a).
  { intros a. unfold to_prediction, label_of. rewrite Hlabels. reflexivity. }
  eexists. split; [apply prediction_results_selection; exact Hlen|]. split.
  - intros r Hr. apply in_map_iff in Hr. destruct Hr as [a [<- Ha]].
    apply filter_In in Ha. destruct Ha as [Hin Ha].
    rewrite Hentry. apply in_map. apply filter_In. auto.
  - rewrite !length_map. apply filter_length_implies. exact Hpass.
Qed.

Lemma X7_higher_threshold_drops_entries_witness :
  exists results2,
    prediction_results high_threshold_cfg [(7 # 10)%Q; (1 # 4)%Q; (1 # 20)%Q]
      = Ok results2
    /\ incl results2
         [mkPrediction "cat" (700 # 1000)%Q; mkPrediction "dog" (250 # 1000)%Q]
    /\ List.length results2 <= 2.
Proof.
  apply (X7_higher_threshold_drops_entries example_cfg high_threshold_cfg
           [(7 # 10)%Q; (1 # 4)%Q; (1 # 20)%Q]
           [mkPrediction "cat" (700 # 1000)%Q; mkPrediction "dog" (250 # 1000)%Q]).
  - reflexivity.
  - unfold Qle. simpl. lia.
  - reflexivity.
Defined.

(** X8: when the vector has at least three classes and every class meets
    the threshold (as with a threshold of 0), the result has exactly three
    entries. *)
Theorem X8_three_entries_when_all_pass (cfg : Config) (probs : list Q) :
  3 <= List.length probs ->
  (forall p, In p probs -> (SCORE_THRESHOLD cfg <= p)%Q) ->
  exists results,
    prediction_results cfg probs = Ok results /\ List.length results = 3.
Proof.
  intros Hlen Hall. eexists. split; [apply prediction_results_selection; exact Hlen|].
  rewrite length_map, filter_all.
  - apply firstn_length_le. rewrite ranking_length. exact Hlen.
  - intros [p i] Hin. apply passes_iff. simpl. apply Hall.
    apply (nth_error_In probs i). apply ranking_In. eapply firstn_In. exact Hin.
Qed.

Lemma X8_three_entries_when_all_pass_witness :
  exists results,
    prediction_results (mkConfig [] 0 [] false)
      [(1 # 4)%Q; (1 # 4)%Q; (1 # 4)%Q; (1 # 4)%Q] = Ok results
    /\ List.length results = 3.
Proof.
  apply X8_three_entries_when_all_pass.
  - simpl. lia.
  - intros p Hp. simpl in Hp.
    destruct Hp as [<-|[<-|[<-|[<-|[]]]]]; unfold Qle; simpl; lia.
Defined.

(** ** The cleaned mapping *)

Lemma get_set_same {V : Type} (d : dict V) (k : string) (v : V) :
  get (set d k v) k = Some v.
Proof.
  induction d as [|[k' v'] d IH]; simpl.
  - rewrite String.eqb_refl. reflexivity.
  - destruct (String.eqb k k') eqn:Hk; simpl; rewrite ?String.eqb_refl, ?Hk; auto.
Qed.

Lemma get_set_other {V : Type} (d : dict V) (k k' : string) (v : V) :
  k' <> k -> get (set d k v) k' = get d k'.
Proof.
  intros Hne. induction d as [|[k0 v0] d IH]; simpl.
  - destruct (String.eqb_spec k' k); [contradiction | reflexivity].
  - destruct (String.eqb_spec k k0) as [->|Hk]; simpl.
    + destruct (String.eqb_spec k' k0); [contradiction | reflexivity].
    + destruct (String.eqb k' k0); [reflexivity | exact IH].
Qed.

Lemma keys_set {V : Type} (d : dict V) (k k' : string) (v : V) :
  In k' (keys (set d k v)) <-> k' = k \/ In k' (keys d).
Proof.
  rewrite <- !contains_In. unfold contains.
  destruct (String.eqb_spec k' k) as [->|Hne].
  - rewrite get_set_same. tauto.
  - rewrite (get_set_other d k k' v Hne).
    destruct (get d k'); split; auto. intros [H|H]; [contradiction | exact H].
Qed.

Lemma set_keeps_NoDup {V : Type} (d : dict V) (k : string) (v : V) :
  NoDup (keys d) -> NoDup (keys (set d k v)).
Proof.
  unfold keys. induction d as [|[k0 v0] d IH]; simpl; intros Hnd.
  - constructor; [intros [] | constructor].
  - inversion Hnd as [|x l Hnotin Hnd']; subst.
    destruct (String.eqb_spec k k0) as [->|Hk]; simpl.
    + constructor; assumption.
    + constructor; [|apply IH; exact Hnd'].
      intros Hin. apply (keys_set d k k0 v) in Hin.
      destruct Hin as [Heq|Hin]; [congruence | exact (Hnotin Hin)].
Qed.

(** The loop of lines 132-138 started from any mapping. *)
Lemma clean_from_keys (its cleaned : dict pyobj) (k : string) :
  In k (keys (fold_left
                (fun cleaned kv => set cleaned (strip_prefixes (fst kv)) (snd kv))
                its cleaned))
  <-> In k (keys cleaned)
      \/ exists k0, In k0 (keys its) /\ strip_prefixes k0 = k.
Proof.
  revert cleaned. induction its as [|[k1 v1] its IH]; intros cleaned; simpl.
  - split; [auto | intros [H|[k0 [[] _]]]; exact H].
  - rewrite IH, keys_set. simpl. split.
    + intros [[->|H]|[k0 [Hin Hk]]]; eauto 6.
    + intros [H|[k0 [[<-|Hin] Hk]]]; eauto 6.
Qed.

Lemma clean_from_NoDup (its cleaned : dict pyobj) :
  NoDup (keys cleaned) ->
  NoDup (keys (fold_left
                 (fun cleaned kv => set cleaned (strip_prefixes (fst kv)) (snd kv))
                 its cleaned)).
Proof.
  revert cleaned. induction its as [|[k1 v1] its IH]; intros cleaned Hnd; simpl.
  - exact Hnd.
  - apply IH. apply set_keeps_NoDup. exact Hnd.
Qed.

Lemma find_app {A : Type} (f : A -> bool) (l1 l2 : list A) :
  find f (l1 ++ l2) = match find f l1 with Some x => Some x | None => find f l2 end.
Proof.
  induction l1 as [|a l1 IH]; simpl; [reflexivity|].
  destruct (f a); [reflexivity | exact IH].
Qed.

Lemma clean_from_get (its cleaned : dict pyobj) (k : string) :
  get (fold_left
         (fun cleaned kv => set cleaned (strip_prefixes (fst kv)) (snd kv))
         its cleaned) k
  = match find (fun kv => String.eqb k (strip_prefixes (fst kv))) (rev its) with
    | Some kv => Some (snd kv)
    | None => get cleaned k
    end.
Proof.
  revert cleaned. induction its as [|[k1 v1] its IH]; intros cleaned; simpl.
  - reflexivity.
  - rewrite IH, find_app. simpl.
    destruct (find (fun kv => String.eqb k (strip_prefixes (fst kv))) (rev its));
      [reflexivity|].
    destruct (String.eqb_spec k (strip_prefixes k1)) as [->|Hne].
    + apply get_set_same.
    + apply get_set_other. exact Hne.
Qed.

(** X9: the keys of the cleaned mapping are exactly the stripped keys of
    the checkpoint, each once: keys that strip to the same name are
    merged into one entry, so the cleaned mapping has at most as many
    entries as the checkpoint. *)
Theorem X9_cleaned_keys_are_stripped_keys (its : dict pyobj) :
  NoDup (keys (clean_state_dict its))
  /\ (forall k, In k (keys (clean_state_dict its))
                <-> exists k0, In k0 (keys its) /\ strip_prefixes k0 = k)
  /\ List.length (clean_state_dict its) <= List.length its.
Proof.
  assert (Hnd : NoDup (keys (clean_state_dict its))).
  { apply clean_from_NoDup. constructor. }
  assert (Hkeys : forall k, In k (keys (clean_state_dict its))
                  <-> exists k0, In k0 (keys its) /\ strip_prefixes k0 = k).
  { intros k. unfold clean_state_dict. rewrite clean_from_keys. simpl. tauto. }
  split; [exact Hnd|]. split; [exact Hkeys|].
  rewrite <- (length_map fst (clean_state_dict its)).
  rewrite <- (length_map (fun kv => strip_prefixes (fst kv)) its).
  apply NoDup_incl_length; [exact Hnd|].
  intros k Hk. apply Hkeys in Hk. destruct Hk as [k0 [Hin <-]].
  unfold keys in Hin. apply in_map_iff in Hin. destruct Hin as [kv [<- Hin]].
  apply in_map_iff. exists kv. auto.
Qed.

(** X10: under a name, the cleaned mapping holds the value of the last
    checkpoint key that strips to that name (a later key overwrites an
    earlier one), and nothing when no key strips to it. *)
Theorem X10_last_stripped_key_wins (its : dict pyobj) (k : string) :
  get (clean_state_dict its) k
  = option_map snd
      (find (fun kv => String.eqb k (strip_prefixes (fst kv))) (rev its)).
Proof.
  unfold clean_state_dict. rewrite clean_from_get.
  destruct (find (fun kv => String.eqb k (strip_prefixes (fst kv))) (rev its));
    reflexivity.
Qed.

(** ** Loading: what is accepted, what is fatal, what is kept *)

(** X11: a checkpoint none of whose stripped keys names an entry of the
    model is accepted: nothing is loaded, nothing is raised, and
    [load_model] returns the classifier with its default initialisation. *)
Theorem X11_foreign_checkpoint_loads_nothing
    (cfg : Config) (state : pyobj) (its : dict pyobj) :
  extract_state_dict state = Ok (PyDict its) ->
  (forall k, In k (keys its) ->
     ~ In (strip_prefixes k) (keys (Torch.state_dict (build_classifier cfg false)))) ->
  load_model cfg (Ok state)
  = Ok (eval (to (build_classifier cfg false) (device cfg))).
Proof.
  intros Hx Hforeign. unfold load_model. rewrite Hx. simpl.
  assert (Hnone : filter_state_dict (clean_state_dict its)
                    (keys (Torch.state_dict (build_classifier cfg false))) = []).
  { apply filter_none. intros [k v] Hin.
    destruct (mem (fst (k, v)) (keys (Torch.state_dict (build_classifier cfg false))))
      eqn:Hm; [|reflexivity].
    apply mem_In in Hm. simpl in Hm. exfalso.
    assert (Hk : In k (keys (clean_state_dict its))).
    { unfold keys. apply in_map_iff. exists (k, v). auto. }
    unfold clean_state_dict in Hk. apply clean_from_keys in Hk.
    destruct Hk as [[]|[k0 [Hk0 <-]]]. exact (Hforeign k0 Hk0 Hm). }
  rewrite Hnone, load_state_dict_nil. reflexivity.
Qed.

Lemma X11_foreign_checkpoint_loads_nothing_witness :
  load_model example_cfg
    (Ok (PyDict [("model.backbone.stem.weight", some_tensor);
                 ("detect.head.weight", some_tensor)]))
  = Ok (eval (to (build_classifier example_cfg false) (device example_cfg))).
Proof.
  apply (X11_foreign_checkpoint_loads_nothing example_cfg _
           [("model.backbone.stem.weight", some_tensor);
            ("detect.head.weight", some_tensor)]).
  - reflexivity.
  - intros k [<-|[<-|[]]]; simpl; intros [H|[H|[H|[]]]]; discriminate H.
Defined.

(** X12: a non-empty mapping that has no wrapper key of its own loads to
    the same model whether it is the checkpoint itself or sits in the
    checkpoint under one of the three wrapper keys. *)
Theorem X12_wrapped_loads_like_flat
    (cfg : Config) (k : string) (kv : string * pyobj) (D : dict pyobj) :
  In k wrapper_keys ->
  existsb (fun w => contains (kv :: D) w) wrapper_keys = false ->
  load_model cfg (Ok (PyDict [(k, PyDict (kv :: D))]))
  = load_model cfg (Ok (PyDict (kv :: D))).
Proof.
  intros Hk Hflat. unfold load_model.
  rewrite (extract_nonempty_wrapper k kv D Hk).
  unfold extract_state_dict at 1. rewrite Hflat. reflexivity.
Qed.

Lemma X12_wrapped_loads_like_flat_witness :
  load_model example_cfg
    (Ok (PyDict [("model_state", PyDict detector_checkpoint)]))
  = load_model example_cfg (Ok (PyDict detector_checkpoint)).
Proof.
  apply (X12_wrapped_loads_like_flat example_cfg "model_state"
           ("module.fc.bias", some_tensor) [("detect.head.weight", some_tensor)]).
  - right. left. reflexivity.
  - reflexivity.
Defined.

(** X13: among the wrapper keys the first truthy value wins, in the order
    state_dict, model_state, model_state_dict, whatever the later keys
    hold; a winner that is no mapping makes [load_model] raise an
    AttributeError, also when a later key holds a mapping. *)
Theorem X13_first_truthy_wrapper_wins (cfg : Config) (d : dict pyobj) :
  (truthy (dict_get d "state_dict") = Ok true ->
   extract_state_dict (PyDict d) = Ok (dict_get d "state_dict"))
  /\ (truthy (dict_get d "state_dict") = Ok false ->
      truthy (dict_get d "model_state") = Ok true ->
      extract_state_dict (PyDict d) = Ok (dict_get d "model_state"))
  /\ (truthy (dict_get d "state_dict") = Ok true ->
      (forall D, dict_get d "state_dict" <> PyDict D) ->
      load_model cfg (Ok (PyDict d))
      = Raise (AttributeError "object has no attribute 'items'")).
Proof.
  assert (Hpresent : forall k, In k wrapper_keys ->
             truthy (dict_get d k) = Ok true ->
             existsb (fun w => contains d w) wrapper_keys = true).
  { intros k Hk Ht. apply existsb_exists. exists k. split; [exact Hk|].
    apply (dict_get_contains d k (dict_get d k) eq_refl).
    intros Hnone. rewrite Hnone in Ht. discriminate Ht. }
  assert (H1 : truthy (dict_get d "state_dict") = Ok true ->
               extract_state_dict (PyDict d) = Ok (dict_get d "state_dict")).
  { intros Ht. unfold extract_state_dict.
    rewrite (Hpresent "state_dict" (or_introl eq_refl) Ht).
    unfold py_or at 1. rewrite Ht. reflexivity. }
  split; [exact H1|]. split.
  - intros Hf Ht. unfold extract_state_dict.
    rewrite (Hpresent "model_state" (or_intror (or_introl eq_refl)) Ht).
    unfold py_or. rewrite Hf. simpl. rewrite Ht. reflexivity.
  - intros Ht Hnd. unfold load_model. rewrite (H1 Ht). simpl.
    destruct (dict_get d "state_dict") eqn:Hv; try reflexivity.
    + discriminate Ht.
    + exfalso. exact (Hnd d0 eq_refl).
Qed.

Lemma X13_first_truthy_wrapper_wins_witness :
  extract_state_dict
    (PyDict [("model_state_dict", PyDict detector_checkpoint);
             ("state_dict", PyStr "see model_state_dict")])
  = Ok (PyStr "see model_state_dict")
  /\ load_model example_cfg
       (Ok (PyDict [("model_state_dict", PyDict detector_checkpoint);
                    ("state_dict", PyStr "see model_state_dict")]))
     = Raise (AttributeError "object has no attribute 'items'").
Proof.
  split.
  - exact (proj1 (X13_first_truthy_wrapper_wins example_cfg
                    [("model_state_dict", PyDict detector_checkpoint);
                     ("state_dict", PyStr "see model_state_dict")]) eq_refl).
  - apply (proj2 (proj2 (X13_first_truthy_wrapper_wins example_cfg
                    [("model_state_dict", PyDict detector_checkpoint);
                     ("state_dict", PyStr "see model_state_dict")]))).
    + reflexivity.
    + intros D H. discriminate H.
Defined.






Lemma load_entry_shape (sd : dict pyobj) (name : string) (p p' : Param) :
  load_entry sd name p = Some p' -> p_shape p' = p_shape p.
Proof.
  unfold load_entry, copy_param. destruct (get sd name) as [v|].
  - destruct v; try discriminate.
    destruct (shape_eqb (t_shape t) (p_shape p)); [|discriminate].
    intros H. injection H as <-. reflexivity.
  - intros H. injection H as <-. reflexivity.
Qed.

Lemma load_into_shapes (ps ps' : dict Param) (sd : dict pyobj) :
  load_into ps sd = Some ps' ->
  map (fun e => (fst e, p_shape (snd e))) ps'
  = map (fun e => (fst e, p_shape (snd e))) ps.
Proof.
  revert ps'. induction ps as [|[n p] ps IH]; simpl; intros ps' H.
  - injection H as <-. reflexivity.
  - destruct (load_entry sd n p) as [p'|] eqn:Hp; [|discriminate].
    destruct (load_into ps sd) as [r'|]; [|discriminate].
    injection H as <-. simpl. rewrite (load_entry_shape _ _ _ _ Hp), (IH r' eq_refl).
    reflexivity.
Qed.

Lemma load_state_dict_architecture (m m' : ResNet) (sd : dict pyobj) (strict : bool)
    (report : list string * list string) :
  load_state_dict m sd strict = Ok (m', report) ->
  architecture m' = architecture m
  /\ in_features (fc m') = in_features (fc m)
  /\ out_features (fc m') = out_features (fc m)
  /\ training m' = training m /\ dev m' = dev m.
Proof.
  unfold load_state_dict, load_fc.
  destruct (load_into (layers m) sd) as [ls|] eqn:Hls; [|discriminate].
  destruct (load_entry sd "fc.weight" (fc_weight (fc m))); [|discriminate].
  destruct (load_entry sd "fc.bias" (fc_bias (fc m))); [|discriminate].
  destruct (strict && _); [discriminate|].
  intros H. injection H as <- _.
  unfold architecture, Torch.state_dict. simpl.
  rewrite !map_app, (load_into_shapes _ _ _ Hls). repeat split.
Qed.

(** X15: every model [load_model] returns, from the fallback or from a
    checkpoint, has the architecture of the classifier it built: the same
    entry names and shapes, 2048 input features and one output per label;
    it is in evaluation mode and on the selected device.  Loading changes
    values only. *)
Theorem X15_loading_keeps_the_architecture
    (cfg : Config) (torch_load : result pyobj) (m : ResNet) :
  load_model cfg torch_load = Ok m ->
  architecture m = architecture (build_classifier cfg false)
  /\ in_features (fc m) = 2048
  /\ out_features (fc m) = List.length (LABELS cfg)
  /\ training m = false
  /\ dev m = device cfg.
Proof.
  unfold load_model. destruct torch_load as [state|e].
  - destruct (extract_state_dict state) as [sd|e]; [|discriminate]. simpl.
    destruct sd; try discriminate. simpl.
    destruct (load_state_dict (build_classifier cfg false) _ false)
      as [[m' report]|e] eqn:Hl; [|discriminate].
    simpl. intros H. injection H as <-.
    apply load_state_dict_architecture in Hl.
    destruct Hl as [Ha [Hi [Ho _]]].
    split; [transitivity (architecture m'); [reflexivity | exact Ha]|].
    split; [simpl; rewrite Hi; reflexivity|].
    split; [simpl; rewrite Ho; reflexivity|].
    split; reflexivity.
  - intros H. injection H as <-. unfold architecture, Torch.state_dict. simpl.
    rewrite !map_app, !map_map. repeat split.
Qed.

Lemma X15_loading_keeps_the_architecture_witness :
  architecture (eval (to (build_classifier example_cfg true) (device example_cfg)))
  = [("conv1.weight", [64; 3; 7; 7]); ("fc.weight", [2; 2048]); ("fc.bias", [2])].
Proof.
  exact (proj1 (X15_loading_keeps_the_architecture example_cfg
                  (Raise (mkExn "FileNotFoundError" "/model/resnet.pth")) _ eq_refl)).
Defined.

(* ================================================================== *)
(** * Properties of raspi/cam.py *)
(* ================================================================== *)

Lemma SUPA_INSERT_URL_is_truthy (env : Cam.Environ) (url : string) :
  Cam.SUPA_INSERT_URL env = Some url -> String.eqb url "" = false.
Proof.
  unfold Cam.SUPA_INSERT_URL.
  destruct (Cam.SUPABASE_URL env) as [u|]; [|discriminate].
  destruct (Cam.SUPABASE_KEY env) as [k|]; [|discriminate].
  destruct u as [|c u]; simpl; [discriminate|].
  destruct (negb (String.eqb k "")); [|discriminate].
  intros H. injection H as <-. reflexivity.
Qed.

(** When the camera, the file, the request to the predictor and the
    parsing of its answer all work and Supabase is configured, [main]
    sends one record, holding the answer, and returns. *)
Lemma cam_main_stores (env : Cam.Environ) (calls : Cam.Calls)
    (response : Cam.Response) (answer : Json.value) (url : string) :
  Cam.isOpened calls = true -> Cam.frame_read calls = true ->
  Cam.imwrite calls = None -> Cam.open_rb calls = None ->
  Cam.predictor calls = Ok response ->
  Cam.json response = Ok answer ->
  Cam.SUPA_INSERT_URL env = Some url ->
  Cam.main env calls
  = (Cam.Returned,
     [Cam.CameraReleased;
      Cam.ImageWritten (Cam.IMAGE_PATH env);
      Cam.ImagePosted (Cam.basename (Cam.IMAGE_PATH env));
      Cam.SupabasePosted url
        (Cam.payload env calls
           (Json.JObj [("image_path", Json.JStr (Cam.IMAGE_PATH env));
                       ("result", answer)]))]).
Proof.
  intros Ho Hf Hw Hopen Hp Hj Hurl.
  unfold Cam.main, Cam.capture_with_webcam, Cam.post_image_to_predictor,
    Cam.save_prediction_to_supabase.
  rewrite Ho, Hf, Hw, Hopen, Hp, Hj, Hurl. simpl.
  rewrite (SUPA_INSERT_URL_is_truthy env url Hurl). simpl.
  destruct (Cam.supabase calls) as [r|e]; [|reflexivity].
  destruct (Nat.eqb (Cam.status_code r) 200 || Nat.eqb (Cam.status_code r) 201);
    reflexivity.
Qed.

(** X16: [main] never looks at the status code of the predictor's answer:
    whatever the status, an answer that parses as JSON is sent to
    Supabase (when configured) as the result of the prediction, and
    [main] returns normally whatever Supabase then answers. *)
Theorem X16_cam_stores_any_json_answer
    (env : Cam.Environ) (calls : Cam.Calls)
    (status : nat) (answer : Json.value) (url : string) :
  Cam.isOpened calls = true -> Cam.frame_read calls = true ->
  Cam.imwrite calls = None -> Cam.open_rb calls = None ->
  Cam.predictor calls = Ok (Cam.mkHttp status (Ok answer)) ->
  Cam.SUPA_INSERT_URL env = Some url ->
  Cam.main env calls
  = (Cam.Returned,
     [Cam.CameraReleased;
      Cam.ImageWritten (Cam.IMAGE_PATH env);
      Cam.ImagePosted (Cam.basename (Cam.IMAGE_PATH env));
      Cam.SupabasePosted url
        (Cam.payload env calls
           (Json.JObj [("image_path", Json.JStr (Cam.IMAGE_PATH env));
                       ("result", answer)]))]).
Proof.
  intros Ho Hf Hw Hopen Hp Hurl.
  apply (cam_main_stores env calls (Cam.mkHttp status (Ok answer))); auto.
Qed.

Lemma X16_cam_stores_any_json_answer_witness :
  Cam.main cam_environ
    (cam_calls (Cam.mkHttp 503 (Ok (Json.JObj [("detail", Json.JStr "busy")]))))
  = (Cam.Returned,
     [Cam.CameraReleased;
      Cam.ImageWritten "./capture.jpg";
      Cam.ImagePosted "capture.jpg";
      Cam.SupabasePosted "https://db.example/rest/v1/predictions"
        (Json.JObj
           [("raspi_id", Json.JStr "raspi-7");
            ("timestamp", Json.JStr "2025-01-01T00:00:00");
            ("prediction",
             Json.JObj [("image_path", Json.JStr "./capture.jpg");
                        ("result", Json.JObj [("detail", Json.JStr "busy")])])])]).
Proof.
  apply (X16_cam_stores_any_json_answer cam_environ
           (cam_calls (Cam.mkHttp 503 (Ok (Json.JObj [("detail", Json.JStr "busy")]))))
           503 (Json.JObj [("detail", Json.JStr "busy")])
           "https://db.example/rest/v1/predictions"); reflexivity.
Defined.





(** X18: an upload the server cannot process is answered with 500 and
    leaves the server's table as it was, and the camera script, which
    does not look at the status, still sends a record to Supabase, whose
    result is the error object of the server. *)
Theorem X18_failed_prediction_is_recorded_by_camera
    (cfg : Config) (server : Server.Calls) (file : UploadFile) (w : World)
    (e : exn) (env : Cam.Environ) (calls : Cam.Calls) (url : string) :
  infer server file = Raise e ->
  Cam.isOpened calls = true -> Cam.frame_read calls = true ->
  Cam.imwrite calls = None -> Cam.open_rb calls = None ->
  Cam.predictor calls = Ok (delivered (fst (predict cfg server file w))) ->
  Cam.SUPA_INSERT_URL env = Some url ->
  Server.status_code (fst (predict cfg server file w)) = 500
  /\ table (snd (predict cfg server file w)) = table w
  /\ Cam.main env calls
     = (Cam.Returned,
        [Cam.CameraReleased;
         Cam.ImageWritten (Cam.IMAGE_PATH env);
         Cam.ImagePosted (Cam.basename (Cam.IMAGE_PATH env));
         Cam.SupabasePosted url
           (Cam.payload env calls
              (Json.JObj [("image_path", Json.JStr (Cam.IMAGE_PATH env));
                          ("result",
                           Json.JObj [("error", Json.JStr (exn_text e))])]))]).
Proof.
  intros Hi Ho Hf Hw Hopen Hp Hurl.
  rewrite (predict_failure cfg server file w e (or_introl Hi)) in *.
  repeat split.
  apply (cam_main_stores env calls _ _ url Ho Hf Hw Hopen Hp); [reflexivity | exact Hurl].
Qed.

Lemma X18_failed_prediction_is_recorded_by_camera_witness :
  Server.status_code (fst (predict example_cfg undecodable_env upload pooled_world)) = 500
  /\ table (snd (predict example_cfg undecodable_env upload pooled_world))
     = table pooled_world
  /\ Cam.main cam_environ
       (cam_calls (delivered (fst (predict example_cfg undecodable_env upload
                                     pooled_world))))
     = (Cam.Returned,
        [Cam.CameraReleased;
         Cam.ImageWritten "./capture.jpg";
         Cam.ImagePosted "capture.jpg";
         Cam.SupabasePosted "https://db.example/rest/v1/predictions"
           (Json.JObj
              [("raspi_id", Json.JStr "raspi-7");
               ("timestamp", Json.JStr "2025-01-01T00:00:00");
               ("prediction",
                Json.JObj
                  [("image_path", Json.JStr "./capture.jpg");
                   ("result",
                    Json.JObj
                      [("error", Json.JStr "cannot identify image file")])])])]).
Proof.
  apply (X18_failed_prediction_is_recorded_by_camera
           example_cfg undecodable_env upload pooled_world
           (mkExn "UnidentifiedImageError" "cannot identify image file")
           cam_environ
           (cam_calls (delivered (fst (predict example_cfg undecodable_env upload
                                         pooled_world))))
           "https://db.example/rest/v1/predictions"); reflexivity.
Defined.

(* ================================================================== *)
(** * Properties of raspi/sensor.py *)
(* ================================================================== *)

Lemma land_shifted_byte (x b : Z) :
  (0 <= b < 256)%Z -> Z.land (Z.shiftl x 8) b = 0%Z.
Proof.
  intros Hb. apply Z.bits_inj'. intros n Hn.
  rewrite Z.land_spec, Z.bits_0.
  destruct (Z.ltb_spec n 8) as [Hlt|Hge].
  - rewrite Z.shiftl_spec_low by exact Hlt. reflexivity.
  - assert (Hz : Z.testbit b n = false).
    { destruct (Z.eq_dec b 0) as [->|Hnz]; [apply Z.bits_0|].
      apply Z.bits_above_log2; [lia|].
      assert (Z.log2 b < 8)%Z by (apply Z.log2_lt_pow2; simpl; lia).
      lia. }
    rewrite Hz. apply andb_false_r.
Qed.

Lemma lor_shifted_byte (x b : Z) :
  (0 <= b < 256)%Z -> Z.lor (Z.shiftl x 8) b = (256 * x + b)%Z.
Proof.
  intros Hb.
  rewrite <- (Z.lxor_lor _ _ (land_shifted_byte x b Hb)).
  rewrite <- (Z.add_nocarry_lxor _ _ (land_shifted_byte x b Hb)).
  rewrite Z.shiftl_mul_pow2 by lia. change (2 ^ 8)%Z with 256%Z. lia.
Qed.

(** X19: for a channel from 0 to 7 and a reply of three bytes,
    [read_channel] returns the 10-bit number made of the two low bits of
    the second byte and the whole third byte: a value from 0 to 1023,
    whatever the first byte and the other bits of the second. *)
Theorem X19_reading_is_ten_bits
    (xfer2 : list Z -> list Z) (channel b0 b1 b2 : Z) :
  (0 <= channel <= 7)%Z ->
  xfer2 (Sensor.command channel) = [b0; b1; b2] ->
  (0 <= b2 <= 255)%Z ->
  Sensor.read_channel xfer2 channel = Ok (256 * (b1 mod 4) + b2)%Z
  /\ (0 <= 256 * (b1 mod 4) + b2 <= 1023)%Z.
Proof.
  intros Hc Hx Hb. split.
  - unfold Sensor.read_channel.
    replace (0 <=? channel)%Z with true by (symmetry; apply Z.leb_le; lia).
    replace (channel <=? 7)%Z with true by (symmetry; apply Z.leb_le; lia).
    cbn [negb andb]. rewrite Hx. unfold Sensor.item. cbn [nth_error bind].
    rewrite lor_shifted_byte by lia.
    change 3%Z with (Z.ones 2). rewrite Z.land_ones by lia. reflexivity.
  - pose proof (Z.mod_pos_bound b1 4 ltac:(lia)). lia.
Qed.

Lemma X19_reading_is_ten_bits_witness :
  Sensor.read_channel steady_adc 1 = Ok (256 * (2 mod 4) + 171)%Z
  /\ (0 <= 256 * (2 mod 4) + 171 <= 1023)%Z.
Proof.
  apply (X19_reading_is_ten_bits steady_adc 1 0 2 171); [lia | reflexivity | lia].
Defined.



(* ================================================================== *)
(** * Properties of raspi/knn.py *)
(* ================================================================== *)

Lemma values_of_empty (features : list string) :
  Knn.values_of (Json.JObj []) features = Ok (map (fun _ => Json.JFloat 0) features).
Proof.
  induction features as [|f rest IH]; simpl; [reflexivity|].
  rewrite IH. reflexivity.
Qed.

Lemma values_of_dict (members : list (string * Json.value)) (features : list string) :
  Knn.values_of (Json.JObj members) features
  = Ok (map (fun f => match get members f with
                      | Some v => v
                      | None => Json.JFloat 0
                      end) features).
Proof.
  induction features as [|f rest IH]; simpl; [reflexivity|].
  rewrite IH. destruct (get members f); reflexivity.
Qed.

(** X21: the values [classify_row] hands to the scaler, one per feature.
    For a row whose [readings] is absent or falsy (null, an empty object,
    0, an empty string) every value is 0.0; for a row whose [readings]
    is a non-empty object each value is the reading of that name, null
    included, and 0.0 only where the name is missing; any other
    [readings] raises an AttributeError unless there is no feature to
    read. *)
Theorem X21_missing_readings_default_to_zero
    (row : list (string * Json.value)) (features : list string) :
  (match get row "readings" with
   | None => True
   | Some r => Knn.truthy r = false
   end ->
   Knn.feature_values (Json.JObj row) features
   = Ok (map (fun _ => Json.JFloat 0) features))
  /\ (forall members,
        get row "readings" = Some (Json.JObj members) -> members <> [] ->
        Knn.feature_values (Json.JObj row) features
        = Ok (map (fun f => match get members f with
                            | Some v => v
                            | None => Json.JFloat 0
                            end) features))
  /\ (forall r f rest,
        get row "readings" = Some r -> Knn.truthy r = true ->
        (forall members, r <> Json.JObj members) ->
        features = f :: rest ->
        Knn.feature_values (Json.JObj row) features = Raise (Knn.no_get r)).
Proof.
  unfold Knn.feature_values. simpl.
  repeat split.
  - destruct (get row "readings") as [r|]; simpl.
    + intros ->. apply values_of_empty.
    + intros _. apply values_of_empty.
  - intros members -> Hne. simpl.
    destruct members as [|m ms]; [contradiction Hne; reflexivity|].
    apply values_of_dict.
  - intros r f rest -> Ht Hno ->. simpl. rewrite Ht.
    destruct r; try reflexivity.
    exfalso. apply (Hno members). reflexivity.
Qed.

Lemma X21_missing_readings_default_to_zero_witness :
  Knn.feature_values (Json.JObj partial_row) ["temp"; "ph"; "tds"]
  = Ok [Json.JNull; Json.JFloat 7; Json.JFloat 0].
Proof.
  apply (proj1 (proj2 (X21_missing_readings_default_to_zero
                         partial_row ["temp"; "ph"; "tds"]))
           [("ph", Json.JFloat 7); ("temp", Json.JNull)]);
    [reflexivity | discriminate].
Defined.
